(** * BaseNumpyIndexer: an append-only gzip vector store

    Shallow embedding of [jina/executors/indexers/vector/__init__.py].

    The indexer is a Python object whose methods mutate its attributes and
    may raise.  It is modelled as a record [Store] threaded through a small
    state-and-exception monad [M]: a computation returns the store it
    leaves behind together with either a value or the exception that was
    raised, so that what a failing call has already mutated stays visible. *)

From Stdlib Require Import List String Ascii Arith PeanoNat Bool Lia.
From Stdlib.Strings Require Import Byte.
Import ListNotations.
Open Scope string_scope.
Open Scope nat_scope.

(* ================================================================== *)
(** ** The part of numpy the indexer relies on *)
(* ================================================================== *)

Module Numpy.

(** The numeric scalar types of numpy, extended precision included
    (on x86-64 Linux these are [float128] and [complex256]). *)
Inductive DType : Type :=
| bool_ | int8 | int16 | int32 | int64
| uint8 | uint16 | uint32 | uint64
| float16 | float32 | float64 | float128
| complex64 | complex128 | complex256.

(** [dtype.name]: the name says kind and width, not the byte order. *)
Definition name (d : DType) : string :=
  match d with
  | bool_ => "bool" | int8 => "int8" | int16 => "int16"
  | int32 => "int32" | int64 => "int64"
  | uint8 => "uint8" | uint16 => "uint16"
  | uint32 => "uint32" | uint64 => "uint64"
  | float16 => "float16" | float32 => "float32" | float64 => "float64"
  | float128 => "float128"
  | complex64 => "complex64" | complex128 => "complex128"
  | complex256 => "complex256"
  end.

(** [sizeof] of one element, in bytes. *)
Definition itemsize (d : DType) : nat :=
  match d with
  | bool_ | int8 | uint8 => 1
  | int16 | uint16 | float16 => 2
  | int32 | uint32 | float32 => 4
  | int64 | uint64 | float64 | complex64 => 8
  | float128 | complex128 => 16
  | complex256 => 32
  end.

Definition is_complex (d : DType) : bool :=
  match d with
  | complex64 | complex128 | complex256 => true
  | _ => false
  end.

Definition all_dtypes : list DType :=
  [bool_; int8; int16; int32; int64; uint8; uint16; uint32; uint64;
   float16; float32; float64; float128; complex64; complex128; complex256].

(** [np.dtype(s)] for a name [s] as [dtype.name] produces them; [None]
    when the name is none of these. *)
Definition of_name (s : string) : option DType :=
  find (fun d => String.eqb (name d) s) all_dtypes.

(** The byte order of the elements in the buffer: the machine's, or the
    other one (as for an array of dtype ['>f4'] on a little-endian
    machine). *)
Inductive ByteOrder : Type := native | swapped.

(** An array is its element type with its byte order, its shape and its
    buffer in C order. *)
Record ndarray : Type := mk_ndarray {
  dtype : DType;
  byteorder : ByteOrder;
  shape : list nat;
  data  : list byte
}.

Definition ndim (a : ndarray) : nat := List.length (shape a).

(** Number of elements: the product of the shape. *)
Definition size (a : ndarray) : nat := fold_right Nat.mul 1 (shape a).

(** The buffer holds exactly [size] elements. *)
Definition wf (a : ndarray) : Prop :=
  List.length (data a) = size a * itemsize (dtype a).

(** [a.tobytes()]: the buffer as it is, in the array's own byte order. *)
Definition tobytes (a : ndarray) : list byte := data a.

(** The bytes of one element put in native order: a swapped scalar is
    reversed, a swapped complex number part by part. *)
Definition to_native (d : DType) (o : ByteOrder) (bs : list byte) : list byte :=
  match o with
  | native => bs
  | swapped =>
      if is_complex d
      then (rev (firstn (itemsize d / 2) bs) ++ rev (skipn (itemsize d / 2) bs))%list
      else rev bs
  end.

(** Element [i] of the flattened array, as the native bytes of its value. *)
Definition item (a : ndarray) (i : nat) : list byte :=
  to_native (dtype a) (byteorder a)
    (firstn (itemsize (dtype a)) (skipn (i * itemsize (dtype a)) (data a))).

(** What can go wrong inside numpy. *)
Inductive error : Type :=
| dtype_not_understood (s : string)
| buffer_size_not_multiple (len isz : nat)
| cannot_reshape (sz d : nat).

(** [np.frombuffer(buf, dtype=s)]: a rank-1 view of the buffer; a type
    given by its name is in native byte order. *)
Definition frombuffer (buf : list byte) (s : string) : ndarray + error :=
  match of_name s with
  | None => inr (dtype_not_understood s)
  | Some d =>
      if List.length buf mod itemsize d =? 0
      then inl (mk_ndarray d native [List.length buf / itemsize d] buf)
      else inr (buffer_size_not_multiple (List.length buf) (itemsize d))
  end.

(** [a.reshape([-1, d])]: the row count is inferred from the size. *)
Definition reshape_rows (a : ndarray) (d : nat) : ndarray + error :=
  match d with
  | 0 => inr (cannot_reshape (size a) 0)
  | S _ =>
      if size a mod d =? 0
      then inl (mk_ndarray (dtype a) (byteorder a) [size a / d; d] (data a))
      else inr (cannot_reshape (size a) d)
  end.

End Numpy.

(* ================================================================== *)
(** ** Python exceptions and the state-and-exception monad *)
(* ================================================================== *)

Module Py.

(** The exceptions of the module, one message constructor per
    [raise] site of the source. *)
Inductive ValueMsg : Type :=
| bad_rank (shp : list nat)
| dim_mismatch (n d : nat) (num_dim : nat)
| count_mismatch (nkeys nvecs : nat)
| numpy_value (e : Numpy.error).

Inductive TypeMsg : Type :=
| dtype_mismatch (got : string) (stored : option string)
| key_dtype_mismatch (got : string) (stored : option string)
| numpy_type (e : Numpy.error).

Inductive exn : Type :=
| ValueError (m : ValueMsg)
| TypeError (m : TypeMsg)
| IndexError
| AttributeError
| EOFError
| OSError
| NotImplementedError.

Inductive result (A : Type) : Type :=
| Ok (a : A)
| Raise (e : exn).
Arguments Ok {A} a.
Arguments Raise {A} e.

Section Monad.
Variable S : Type.

Definition M (A : Type) : Type := S -> S * result A.

Definition ret {A} (a : A) : M A := fun s => (s, Ok a).

Definition bind {A B} (m : M A) (k : A -> M B) : M B :=
  fun s =>
    match m s with
    | (s', Ok a) => k a s'
    | (s', Raise e) => (s', Raise e)
    end.

Definition raise {A} (e : exn) : M A := fun s => (s, Raise e).

Definition get : M S := fun s => (s, Ok s).

Definition modify (f : S -> S) : M unit := fun s => (f s, Ok tt).

(** [try: m except EOFError: h] *)
Definition try_except_EOFError {A} (m : M A) (h : M A) : M A :=
  fun s =>
    match m s with
    | (s', Raise EOFError) => h s'
    | r => r
    end.
End Monad.

Arguments ret {S A} a.
Arguments bind {S A B} m k.
Arguments raise {S A} e.
Arguments get {S}.
Arguments modify {S} f.
Arguments try_except_EOFError {S A} m h.

End Py.

Import Py.

Declare Scope py_scope.
Delimit Scope py_scope with py.
Notation "x <- m ;; k" := (bind m (fun x => k))
  (at level 61, m at next level, right associativity) : py_scope.
Notation "m ;; k" := (bind m (fun _ => k))
  (at level 61, right associativity) : py_scope.
Open Scope py_scope.

(** numpy errors surface as [ValueError], except an unknown type name,
    which is a [TypeError]. *)
Definition exn_of_numpy (e : Numpy.error) : exn :=
  match e with
  | Numpy.dtype_not_understood _ => TypeError (numpy_type e)
  | _ => ValueError (numpy_value e)
  end.

Definition lift_numpy {S A} (r : A + Numpy.error) : M S A :=
  match r with
  | inl a => ret a
  | inr e => raise (exn_of_numpy e)
  end.

(* ================================================================== *)
(** ** The store *)
(* ================================================================== *)

Import Numpy.

(** What [gzip.open(path, 'rb').read()] does on an existing file: it
    returns the decompressed payload or raises ([EOFError] on a stream
    that was never closed, [OSError] on a file that is not gzip). *)
Inductive gzip_read : Type :=
| GzBytes (payload : list byte)
| GzRaises (e : exn).

Inductive level : Type := INFO | WARNING | ERROR.

(** The attribute [int2ext_key].  [__init__] does not create it: it does
    not exist until something assigns it, and reading it before raises
    [AttributeError]; once assigned it holds [None] or an array. *)
Inductive key_table : Type :=
| no_attribute
| none_table
| keys_table (t : ndarray).

(** What the stream [self.write_handler] does with a write: it takes the
    bytes, or opening or writing it raises. *)
Inductive handler : Type :=
| accepts
| refuses (e : exn).

Inductive log_msg : Type :=
| loading_index
| data_not_found
| broken_incomplete
| keys_vectors_inconsistent (nkeys nvecs : nat)
| empty_index_loaded.

(** The attributes of a [BaseNumpyIndexer], the file at [index_abspath]
    and the records sent to [self.logger].  [_size] and [write_handler]
    are inherited attributes; [write_handler] is the uncompressed content
    handed to the open gzip stream so far, and [index_file] is the file as
    a reader finds it once no stream is open on it: the bytes of the
    stream are readable there after [close].  What a reader finds while
    the stream is still open depends on gzip's buffering and is not
    described.  [hook_calls] is a trace, not an attribute: the arguments
    [build_advanced_index] has been called with. *)
Record Store : Type := mk_Store {
  num_dim        : option nat;
  dtype_         : option string;
  compress_level : nat;
  key_bytes      : list byte;
  key_dtype      : option string;
  _size          : nat;
  int2ext_key    : key_table;
  write_handler  : list byte;
  index_file     : option gzip_read;
  logger         : list (level * log_msg);
  hook_calls     : list ndarray
}.

Definition set_schema (d : nat) (t : string) (s : Store) : Store :=
  mk_Store (Some d) (Some t) (compress_level s) (key_bytes s) (key_dtype s)
           (_size s) (int2ext_key s) (write_handler s) (index_file s) (logger s)
           (hook_calls s).

Definition write (bs : list byte) (s : Store) : Store :=
  mk_Store (num_dim s) (dtype_ s) (compress_level s) (key_bytes s) (key_dtype s)
           (_size s) (int2ext_key s) (write_handler s ++ bs) (index_file s) (logger s)
           (hook_calls s).

Definition extend_key_bytes (bs : list byte) (s : Store) : Store :=
  mk_Store (num_dim s) (dtype_ s) (compress_level s) (key_bytes s ++ bs) (key_dtype s)
           (_size s) (int2ext_key s) (write_handler s) (index_file s) (logger s)
           (hook_calls s).

Definition set_key_dtype (t : string) (s : Store) : Store :=
  mk_Store (num_dim s) (dtype_ s) (compress_level s) (key_bytes s) (Some t)
           (_size s) (int2ext_key s) (write_handler s) (index_file s) (logger s)
           (hook_calls s).

Definition grow_size (n : nat) (s : Store) : Store :=
  mk_Store (num_dim s) (dtype_ s) (compress_level s) (key_bytes s) (key_dtype s)
           (_size s + n) (int2ext_key s) (write_handler s) (index_file s) (logger s)
           (hook_calls s).

Definition set_int2ext_key (k : ndarray) (s : Store) : Store :=
  mk_Store (num_dim s) (dtype_ s) (compress_level s) (key_bytes s) (key_dtype s)
           (_size s) (keys_table k) (write_handler s) (index_file s) (logger s)
           (hook_calls s).

(** [self.int2ext_key = None], as a subclass or a collaborator may do. *)
Definition clear_int2ext_key (s : Store) : Store :=
  mk_Store (num_dim s) (dtype_ s) (compress_level s) (key_bytes s) (key_dtype s)
           (_size s) none_table (write_handler s) (index_file s) (logger s)
           (hook_calls s).

Definition set_index_file (f : option gzip_read) (s : Store) : Store :=
  mk_Store (num_dim s) (dtype_ s) (compress_level s) (key_bytes s) (key_dtype s)
           (_size s) (int2ext_key s) (write_handler s) f (logger s)
           (hook_calls s).

Definition emit (l : level) (m : log_msg) (s : Store) : Store :=
  mk_Store (num_dim s) (dtype_ s) (compress_level s) (key_bytes s) (key_dtype s)
           (_size s) (int2ext_key s) (write_handler s) (index_file s)
           (logger s ++ [(l, m)]) (hook_calls s).

Definition log (l : level) (m : log_msg) : M Store unit := modify (emit l m).

(** [__init__]: the schema is unset and the key buffer empty; the
    attribute [int2ext_key] is not created.
    Modelled from the spec: the inherited count starts at zero, nothing
    is written yet and there is no file. *)
Definition init (compress_level : nat) : Store :=
  mk_Store None None compress_level [] None 0 no_attribute [] None [] [].

(** Python truthiness of the attributes tested with [if x] / [if not x]. *)
Definition truthy_nat (o : option nat) : bool :=
  match o with Some (S _) => true | _ => false end.

Definition truthy_str (o : option string) : bool :=
  match o with Some EmptyString => false | Some _ => true | None => false end.

Definition truthy_bytes (bs : list byte) : bool :=
  match bs with [] => false | _ => true end.

Definition opt_nat_eqb (o : option nat) (n : nat) : bool :=
  match o with Some m => m =? n | None => false end.

Definition opt_str_eqb (o : option string) (t : string) : bool :=
  match o with Some u => String.eqb u t | None => false end.

(** [a.shape[i]] *)
Definition shape_at (a : ndarray) (i : nat) : M Store nat :=
  match nth_error (shape a) i with
  | Some n => ret n
  | None => raise IndexError
  end.

(* ================================================================== *)
(** ** Write path *)
(* ================================================================== *)

(** The [if not self.num_dim: ... elif ...] chain of [add]. *)
Definition validate (keys vectors : ndarray) : M Store unit :=
  s <- get ;;
  if negb (truthy_nat (num_dim s)) then
    d <- shape_at vectors 1 ;;
    modify (set_schema d (name (dtype vectors)))
  else
    d <- shape_at vectors 1 ;;
    if negb (opt_nat_eqb (num_dim s) d) then
      n <- shape_at vectors 0 ;;
      raise (ValueError (dim_mismatch n d (match num_dim s with Some D => D | None => 0 end)))
    else if negb (opt_str_eqb (dtype_ s) (name (dtype vectors))) then
      raise (TypeError (dtype_mismatch (name (dtype vectors)) (dtype_ s)))
    else
      k <- shape_at keys 0 ;;
      n <- shape_at vectors 0 ;;
      if negb (k =? n) then
        raise (ValueError (count_mismatch k n))
      else if negb (opt_str_eqb (key_dtype s) (name (dtype keys))) then
        raise (TypeError (key_dtype_mismatch (name (dtype keys)) (key_dtype s)))
      else ret tt.

(** [self.write_handler.write(bs)] *)
Definition write_to (h : handler) (bs : list byte) : M Store unit :=
  match h with
  | accepts => modify (write bs)
  | refuses e => raise e
  end.

(** [add], over a stream that behaves as [h]. *)
Definition add_on (h : handler) (keys vectors : ndarray) : M Store unit :=
  (if negb (ndim vectors =? 2)
   then raise (ValueError (bad_rank (shape vectors)))
   else ret tt) ;;
  validate keys vectors ;;
  write_to h (tobytes vectors) ;;
  modify (extend_key_bytes (tobytes keys)) ;;
  modify (set_key_dtype (name (dtype keys))) ;;
  k <- shape_at keys 0 ;;
  modify (grow_size k).

(** [add] over a stream that takes the bytes. *)
Definition add (keys vectors : ndarray) : M Store unit :=
  add_on accepts keys vectors.

(* ================================================================== *)
(** ** Read path *)
(* ================================================================== *)

Definition the_nat (o : option nat) : nat :=
  match o with Some n => n | None => 0 end.

Definition the_str (o : option string) : string :=
  match o with Some t => t | None => EmptyString end.

(** [fp.read()] on the opened index file. *)
Definition fp_read (f : gzip_read) : M Store (list byte) :=
  match f with
  | GzBytes payload => ret payload
  | GzRaises e => raise e
  end.

Definition _load_gzip : M Store (option ndarray) :=
  log INFO loading_index ;;
  s <- get ;;
  match index_file s with
  | None =>
      log WARNING data_not_found ;;
      ret None
  | Some f =>
      try_except_EOFError
        (if truthy_nat (num_dim s) && truthy_str (dtype_ s) then
           buf <- fp_read f ;;
           flat <- lift_numpy (frombuffer buf (the_str (dtype_ s))) ;;
           vecs <- lift_numpy (reshape_rows flat (the_nat (num_dim s))) ;;
           ret (Some vecs)
         else ret None)
        (log ERROR broken_incomplete ;;
         ret None)
  end.

(** Lines 109-110: the key table is rebuilt from a non-empty key buffer. *)
Definition derive_int2ext_key : M Store unit :=
  s <- get ;;
  if truthy_bytes (key_bytes s) && truthy_str (key_dtype s) then
    k <- lift_numpy (frombuffer (key_bytes s) (the_str (key_dtype s))) ;;
    modify (set_int2ext_key k)
  else ret tt.

Definition raw_ndarray : M Store (option ndarray) :=
  loaded <- _load_gzip ;;
  match loaded with
  | None => ret None
  | Some vecs =>
      derive_int2ext_key ;;
      s <- get ;;
      match int2ext_key s with
      | no_attribute => raise AttributeError
      | none_table => ret None
      | keys_table table =>
          if ndim vecs =? 2 then
            k <- shape_at table 0 ;;
            n <- shape_at vecs 0 ;;
            if negb (k =? n) then
              log ERROR (keys_vectors_inconsistent k n) ;;
              ret None
            else
              (if n =? 0 then log WARNING empty_index_loaded else ret tt) ;;
              ret (Some vecs)
          else ret None
      end
  end.

(* ================================================================== *)
(** ** Query path and the hook *)
(* ================================================================== *)

Definition record_hook_call (vecs : ndarray) (s : Store) : Store :=
  mk_Store (num_dim s) (dtype_ s) (compress_level s) (key_bytes s) (key_dtype s)
           (_size s) (int2ext_key s) (write_handler s) (index_file s) (logger s)
           (hook_calls s ++ [vecs]).

Section Hook.
(** What a concrete indexer builds, and the body of its override of
    [build_advanced_index]. *)
Variable T : Type.
Variable build : ndarray -> result T.

Definition build_advanced_index (vecs : ndarray) : M Store T :=
  modify (record_hook_call vecs) ;;
  match build vecs with
  | Ok t => ret t
  | Raise e => raise e
  end.

Definition get_query_handler : M Store (option T) :=
  vecs <- raw_ndarray ;;
  match vecs with
  | Some v =>
      t <- build_advanced_index v ;;
      ret (Some t)
  | None => ret None
  end.

(** The calls a client can make on an indexer; an append is listed
    twice, for a stream that takes the bytes and for one that raises. *)
Inductive op : Type :=
| op_add (keys vectors : ndarray)
| op_add_refused (e : exn) (keys vectors : ndarray)
| op_load_gzip
| op_raw_ndarray
| op_get_query_handler.

(** The store an operation leaves behind, whether it returned or raised. *)
Definition step (s : Store) (o : op) : Store :=
  match o with
  | op_add keys vectors => fst (add keys vectors s)
  | op_add_refused e keys vectors => fst (add_on (refuses e) keys vectors s)
  | op_load_gzip => fst (_load_gzip s)
  | op_raw_ndarray => fst (raw_ndarray s)
  | op_get_query_handler => fst (get_query_handler s)
  end.

Definition run (s : Store) (ops : list op) : Store := fold_left step ops s.
End Hook.

(** In [BaseNumpyIndexer] itself the hook is abstract. *)
Definition base_build (vecs : ndarray) : result unit := Raise NotImplementedError.

(** Modelled from the spec: the collaborator closes the output stream
    after the ingestion session; what was written becomes the payload of
    the file, after the payload an earlier session left there. *)
Definition close (s : Store) : Store :=
  mk_Store (num_dim s) (dtype_ s) (compress_level s) (key_bytes s) (key_dtype s)
           (_size s) (int2ext_key s) []
           (match index_file s with
            | None => Some (GzBytes (write_handler s))
            | Some (GzBytes payload) => Some (GzBytes (payload ++ write_handler s))
            | Some (GzRaises e) => Some (GzRaises e)
            end)
           (logger s) (hook_calls s).

(** A batch of an ingestion session: the two arguments of one [add]. *)
Definition batch : Type := ndarray * ndarray.

(** Appends the batches in order; stops at the first call that raises. *)
Fixpoint add_all (bs : list batch) : M Store unit :=
  match bs with
  | [] => ret tt
  | (keys, vectors) :: rest => add keys vectors ;; add_all rest
  end.

(* ================================================================== *)
(** ** Vocabulary of the statements *)
(* ================================================================== *)

(** The four updates at the end of [add]. *)
Definition appended (keys vectors : ndarray) (k : nat) (s : Store) : Store :=
  grow_size k
    (set_key_dtype (name (dtype keys))
       (extend_key_bytes (tobytes keys)
          (write (tobytes vectors) s))).

(** [m] never changes the view [f] of the store, whether it returns
    or raises. *)
Definition preserves {X A : Type} (f : Store -> X) (m : M Store A) : Prop :=
  forall s, f (fst (m s)) = f s.

(** Everything the write path owns, with the stream and the file. *)
Definition write_state (s : Store) :=
  (num_dim s, dtype_ s, key_bytes s, key_dtype s, compress_level s, _size s,
   write_handler s, index_file s).

(** What the read path reads of the store, the key table apart. *)
Definition read_view (s : Store) :=
  (num_dim s, dtype_ s, key_bytes s, key_dtype s, index_file s).

(** The bytes of all vectors, and of all keys, of a list of batches. *)
Definition vectors_bytes (bs : list batch) : list byte :=
  List.concat (map (fun b => tobytes (snd b)) bs).

Definition keys_bytes (bs : list batch) : list byte :=
  List.concat (map (fun b => tobytes (fst b)) bs).

(** Rows of a batch: [vectors.shape[0]]. *)
Definition batch_rows (b : batch) : nat := hd 0 (shape (snd b)).

Definition total_rows (bs : list batch) : nat := list_sum (map batch_rows bs).

(** A batch that fits the schema [(D, T, KT)]: [N] keys of type [KT]
    for an [N x D] array of type [T]. *)
Definition consistent (D : nat) (T KT : DType) (b : batch) : Prop :=
  exists n,
    shape (snd b) = [n; D] /\ dtype (snd b) = T /\ wf (snd b)
    /\ shape (fst b) = [n] /\ dtype (fst b) = KT /\ wf (fst b).

(** The schema [(D, T, KT)] is the one in the store. *)
Definition has_schema (D : nat) (T KT : DType) (s : Store) : Prop :=
  num_dim s = Some D /\ dtype_ s = Some (name T) /\ key_dtype s = Some (name KT).

(** The three schema attributes are unset together or set together. *)
Definition schema_together (s : Store) : Prop :=
  (num_dim s = None /\ dtype_ s = None /\ key_dtype s = None)
  \/ (num_dim s <> None /\ dtype_ s <> None /\ key_dtype s <> None).

(** The operation is not an append over a stream that raises. *)
Definition stream_accepts (o : op) : Prop :=
  match o with
  | op_add_refused _ _ _ => False
  | _ => True
  end.

(** The counting invariant of the write path. *)
Definition counted (D : nat) (T KT : DType) (s : Store) : Prop :=
  (truthy_nat (num_dim s) = true ->
     num_dim s = Some D /\ dtype_ s = Some (name T)
     /\ key_dtype s = Some (name KT))
  /\ List.length (key_bytes s) = _size s * itemsize KT
  /\ List.length (write_handler s) = _size s * (D * itemsize T).

(* ================================================================== *)
(** ** Tactics *)
(* ================================================================== *)

(** Closes a goal [(s1, r1) = (s2, r2) -> ...] by injecting the pair;
    fails when the two results cannot be equal. *)
Ltac same_store :=
  let E := fresh "E" in
  simpl; intros E; solve [discriminate E | injection E; intros; subst; reflexivity].

Ltac unfold_add :=
  unfold add, add_on, write_to, validate, shape_at, ndim,
    bind, ret, raise, get, modify.

Arguments frombuffer : simpl never.
Arguments reshape_rows : simpl never.

(** Splits on what the goal matches on, innermost scrutinee first. *)
Ltac break_match :=
  match goal with
  | |- context [match ?x with _ => _ end] =>
      lazymatch x with
      | context [match _ with _ => _ end] => fail
      | _ => destruct x eqn:?
      end
  end.

(** Unfolds the whole of [raw_ndarray], down to pairs. *)
Ltac unfold_raw :=
  unfold raw_ndarray, _load_gzip, derive_int2ext_key, log, fp_read,
    lift_numpy, shape_at, try_except_EOFError, bind, ret, raise, get, modify.

Ltac unfold_load :=
  unfold _load_gzip, log, fp_read, lift_numpy, try_except_EOFError,
    bind, ret, raise, get, modify.

(* ================================================================== *)
(** ** Example data *)
(* ================================================================== *)

Module Examples.

Definition zeros (n : nat) : list byte := repeat x00 n.

(** [keys=[1,2,3]] (int64) and a 3x2 float32 array. *)
Definition keys3 : ndarray :=
  mk_ndarray int64 native [3]
    ([x01] ++ zeros 7 ++ [x02] ++ zeros 7 ++ [x03] ++ zeros 7).

Definition vecs3x2 : ndarray :=
  mk_ndarray float32 native [3; 2]
    [x00; x00; x80; x3f;  x00; x00; x00; x40;
     x00; x00; x40; x40;  x00; x00; x80; x40;
     x00; x00; xa0; x40;  x00; x00; xc0; x40].


(** One int64 key, [7]. *)
Definition one_key : ndarray := mk_ndarray int64 native [1] ([x07] ++ zeros 7).

(** float32 arrays of zeros. *)
Definition vecs2x2 : ndarray := mk_ndarray float32 native [2; 2] (zeros 16).
Definition vecs2x3 : ndarray := mk_ndarray float32 native [2; 3] (zeros 24).
Definition vecs1x2 : ndarray := mk_ndarray float32 native [1; 2] (zeros 8).
Definition vecs1x0 : ndarray := mk_ndarray float32 native [1; 0] [].
Definition vecs0x2 : ndarray := mk_ndarray float32 native [0; 2] [].
Definition no_keys : ndarray := mk_ndarray int64 native [0] [].

(** One row of three float64 zeros. *)
Definition vecs1x3 : ndarray := mk_ndarray float64 native [1; 3] (zeros 24).

(** A float64 row of width 2, an int32 key and a key array without axis. *)
Definition vecs1x2_f64 : ndarray := mk_ndarray float64 native [1; 2] (zeros 16).
Definition one_key_i32 : ndarray := mk_ndarray int32 native [1] ([x07] ++ zeros 3).
Definition scalar_key : ndarray := mk_ndarray int64 native [] ([x07] ++ zeros 7).

(** The row [[1.0, 2.0]] as float32 in the other byte order (big-endian
    on a little-endian machine). *)
Definition vecs1x2_be : ndarray :=
  mk_ndarray float32 swapped [1; 2] [x3f; x80; x00; x00;  x40; x00; x00; x00].

(** The store of the scenario: three keys, a 3x2 float32 array. *)
Definition store3x2 : Store := fst (add keys3 vecs3x2 (init 1)).

(** A store whose first append had zero-width vectors. *)
Definition store_dim0 : Store := fst (add one_key vecs1x0 (init 1)).

End Examples.

(* ================================================================== *)
(** ** Facts about the numpy model *)
(* ================================================================== *)

Lemma of_name_name (d : DType) : of_name (name d) = Some d.
Proof. destruct d; reflexivity. Qed.

Lemma of_name_inv (t : string) (d : DType) : of_name t = Some d -> t = name d.
Proof.
  unfold of_name. intros H. apply find_some in H. destruct H as [_ H].
  apply String.eqb_eq in H. now symmetry.
Qed.

Lemma itemsize_pos (d : DType) : 0 < itemsize d.
Proof. destruct d; simpl; lia. Qed.

Lemma name_nonempty (d : DType) : truthy_str (Some (name d)) = true.
Proof. destruct d; reflexivity. Qed.

Lemma opt_str_eqb_name (o : option string) (t : string) :
  opt_str_eqb o t = true <-> o = Some t.
Proof.
  destruct o as [u|]; simpl.
  - rewrite String.eqb_eq. split; congruence.
  - split; discriminate.
Qed.

Lemma opt_nat_eqb_eq (o : option nat) (n : nat) :
  opt_nat_eqb o n = true <-> o = Some n.
Proof.
  destruct o as [m|]; simpl.
  - rewrite Nat.eqb_eq. split; congruence.
  - split; discriminate.
Qed.

Lemma truthy_nat_true (o : option nat) :
  truthy_nat o = true <-> exists D, o = Some D /\ D <> 0.
Proof.
  destruct o as [[|m]|]; simpl; split; try discriminate.
  - intros (D & E & HD). congruence.
  - intros _. exists (S m). split; [reflexivity | lia].
  - reflexivity.
  - intros (D & E & _). discriminate.
Qed.

(** Reading back a well-formed rank-1 array in native byte order. *)
Lemma frombuffer_tobytes_1d (a : ndarray) (k : nat) :
  wf a -> shape a = [k] -> byteorder a = native ->
  frombuffer (tobytes a) (name (dtype a)) = inl a.
Proof.
  intros W Hs Ho. unfold frombuffer, tobytes. rewrite of_name_name.
  unfold wf, size in W. rewrite Hs in W. simpl in W. rewrite Nat.mul_1_r in W.
  pose proof (itemsize_pos (dtype a)) as P.
  rewrite W, Nat.Div0.mod_mul, Nat.div_mul by lia. simpl.
  destruct a as [t o sh bs]; simpl in *. now subst.
Qed.

(** Reading back a well-formed rank-2 array of non-zero width, in native
    byte order. *)
Lemma frombuffer_reshape_2d (a : ndarray) (n d : nat) :
  wf a -> shape a = [n; d] -> d <> 0 -> byteorder a = native ->
  exists flat,
    frombuffer (tobytes a) (name (dtype a)) = inl flat
    /\ reshape_rows flat d = inl a.
Proof.
  intros W Hs Hd Ho. unfold frombuffer, tobytes. rewrite of_name_name.
  unfold wf, size in W. rewrite Hs in W. simpl in W. rewrite Nat.mul_1_r in W.
  pose proof (itemsize_pos (dtype a)) as P.
  rewrite W, Nat.Div0.mod_mul, Nat.div_mul by lia. simpl.
  eexists. split; [reflexivity|].
  unfold reshape_rows, size. simpl.
  destruct d as [|d']; [congruence|].
  rewrite !Nat.mul_1_r.
  rewrite Nat.Div0.mod_mul, Nat.div_mul by lia. simpl.
  destruct a as [t o sh bs]; simpl in *. now subst.
Qed.

(* ================================================================== *)
(** ** The write path, case by case *)
(* ================================================================== *)

(** Vectors of rank other than 2 are refused before anything is touched. *)
Lemma add_bad_rank (s : Store) (keys vectors : ndarray) :
  ndim vectors <> 2 ->
  add keys vectors s = (s, Raise (ValueError (bad_rank (shape vectors)))).
Proof.
  intros H. unfold_add. apply Nat.eqb_neq in H. unfold ndim in H.
  now rewrite H.
Qed.

(** While the dimension is unset (or zero) there is no check at all. *)
Lemma add_unset (s : Store) (keys vectors : ndarray) (n d k : nat) (ks : list nat) :
  truthy_nat (num_dim s) = false ->
  shape vectors = [n; d] -> shape keys = k :: ks ->
  add keys vectors s
  = (appended keys vectors k (set_schema d (name (dtype vectors)) s), Ok tt).
Proof.
  intros Hu Hv Hk. unfold_add. rewrite Hv, Hk. simpl. rewrite Hu. simpl.
  reflexivity.
Qed.

(** Once the dimension is set, a batch that passes all four checks
    is appended. *)
Lemma add_set_ok (s : Store) (keys vectors : ndarray) (n d : nat) (ks : list nat) :
  truthy_nat (num_dim s) = true ->
  shape vectors = [n; d] -> shape keys = n :: ks ->
  num_dim s = Some d -> dtype_ s = Some (name (dtype vectors)) ->
  key_dtype s = Some (name (dtype keys)) ->
  add keys vectors s = (appended keys vectors n s, Ok tt).
Proof.
  intros Ht Hv Hk Hd Hty Hkt. unfold_add. rewrite Hv, Hk. simpl. rewrite Ht. simpl.
  rewrite (proj2 (opt_nat_eqb_eq _ _) Hd). simpl.
  rewrite (proj2 (opt_str_eqb_name _ _) Hty). simpl.
  rewrite Nat.eqb_refl. simpl.
  rewrite (proj2 (opt_str_eqb_name _ _) Hkt). simpl.
  reflexivity.
Qed.

(** Once the dimension is set, every check comes before every update. *)
Lemma add_set_raise_unchanged (s s' : Store) (keys vectors : ndarray) (e : exn) :
  truthy_nat (num_dim s) = true ->
  add keys vectors s = (s', Raise e) -> s' = s.
Proof.
  intros Ht. unfold_add.
  destruct (shape vectors) as [|n [|d [|? ?]]]; simpl; try same_store.
  rewrite Ht. simpl.
  destruct (opt_nat_eqb (num_dim s) d); simpl; [|same_store].
  destruct (opt_str_eqb (dtype_ s) (name (dtype vectors))); simpl; [|same_store].
  destruct (shape keys) as [|k ks]; simpl; [same_store|].
  destruct (k =? n); simpl; [|same_store].
  destruct (opt_str_eqb (key_dtype s) (name (dtype keys))); same_store.
Qed.

(** Once the dimension is set, a stream that raises is met before any
    update: the store is left as it was. *)
Lemma add_refused_set_unchanged
    (s : Store) (keys vectors : ndarray) (e : exn) :
  truthy_nat (num_dim s) = true ->
  fst (add_on (refuses e) keys vectors s) = s.
Proof.
  intros Ht. unfold_add.
  destruct (shape vectors) as [|n [|d [|? ?]]]; simpl; try reflexivity.
  rewrite Ht. simpl.
  destruct (opt_nat_eqb (num_dim s) d); simpl; [|reflexivity].
  destruct (opt_str_eqb (dtype_ s) (name (dtype vectors))); simpl; [|reflexivity].
  destruct (shape keys) as [|k ks]; simpl; [reflexivity|].
  destruct (k =? n); simpl; [|reflexivity].
  destruct (opt_str_eqb (key_dtype s) (name (dtype keys))); reflexivity.
Qed.

(** Once the dimension is set, a call that returns has passed the checks. *)
Lemma add_set_ok_inv (s s' : Store) (keys vectors : ndarray) :
  truthy_nat (num_dim s) = true ->
  add keys vectors s = (s', Ok tt) ->
  exists n d ks,
    shape vectors = [n; d] /\ shape keys = n :: ks
    /\ num_dim s = Some d /\ dtype_ s = Some (name (dtype vectors))
    /\ key_dtype s = Some (name (dtype keys))
    /\ s' = appended keys vectors n s.
Proof.
  intros Ht. unfold_add.
  destruct (shape vectors) as [|n [|d [|? ?]]] eqn:Hv; simpl; try same_store.
  rewrite Ht. simpl.
  destruct (opt_nat_eqb (num_dim s) d) eqn:Ed; simpl; [|same_store].
  destruct (opt_str_eqb (dtype_ s) (name (dtype vectors))) eqn:Et; simpl; [|same_store].
  destruct (shape keys) as [|k ks] eqn:Hk; simpl; [same_store|].
  destruct (k =? n) eqn:Ekn; simpl; [|same_store].
  destruct (opt_str_eqb (key_dtype s) (name (dtype keys))) eqn:Ekt; simpl; [|same_store].
  intros E. apply Nat.eqb_eq in Ekn. subst k.
  exists n, d, ks. repeat split; try reflexivity.
  - now apply opt_nat_eqb_eq.
  - now apply opt_str_eqb_name.
  - now apply opt_str_eqb_name.
  - injection E. intros. now subst.
Qed.

(* ================================================================== *)
(** ** Frames: what a computation leaves alone *)
(* ================================================================== *)

Section Frame.
Context {X : Type} (f : Store -> X).

Lemma preserves_ret {A} (a : A) : preserves f (ret a).
Proof. intros s. reflexivity. Qed.

Lemma preserves_raise {A} (e : exn) : preserves f (@raise Store A e).
Proof. intros s. reflexivity. Qed.

Lemma preserves_modify (g : Store -> Store) :
  (forall s, f (g s) = f s) -> preserves f (modify g).
Proof. intros H s. apply H. Qed.

Lemma preserves_bind {A B} (m : M Store A) (k : A -> M Store B) :
  preserves f m -> (forall a, preserves f (k a)) -> preserves f (bind m k).
Proof.
  intros Hm Hk s. unfold bind. specialize (Hm s).
  destruct (m s) as [s1 [a|e]]; simpl in *.
  - rewrite Hk. exact Hm.
  - exact Hm.
Qed.

(** [get] hands the current store to the continuation. *)
Lemma preserves_get {B} (k : Store -> M Store B) :
  (forall s0, preserves f (k s0)) -> preserves f (bind get k).
Proof. intros Hk s. unfold bind, get. apply Hk. Qed.

Lemma preserves_try {A} (m h : M Store A) :
  preserves f m -> preserves f h -> preserves f (try_except_EOFError m h).
Proof.
  intros Hm Hh s. unfold try_except_EOFError. specialize (Hm s).
  destruct (m s) as [s1 [a|[]]]; simpl in *; try exact Hm.
  rewrite Hh. exact Hm.
Qed.

Lemma preserves_lift_numpy {A} (r : A + Numpy.error) : preserves f (lift_numpy r).
Proof. destruct r; intros s; reflexivity. Qed.

Lemma preserves_shape_at (a : ndarray) (i : nat) : preserves f (shape_at a i).
Proof. unfold shape_at. destruct (nth_error (shape a) i); intros s; reflexivity. Qed.

Lemma preserves_fp_read (g : gzip_read) : preserves f (fp_read g).
Proof. destruct g; intros s; reflexivity. Qed.

Hypothesis f_emit : forall l m s, f (emit l m s) = f s.

Lemma preserves_log (l : level) (m : log_msg) : preserves f (log l m).
Proof. apply preserves_modify. apply f_emit. Qed.

Lemma preserves_load_gzip : preserves f _load_gzip.
Proof.
  unfold _load_gzip.
  apply preserves_bind; [apply preserves_log | intros _].
  apply preserves_get. intros s0.
  destruct (index_file s0) as [g|].
  - apply preserves_try.
    + destruct (truthy_nat (num_dim s0) && truthy_str (dtype_ s0)).
      * apply preserves_bind; [apply preserves_fp_read | intros buf].
        apply preserves_bind; [apply preserves_lift_numpy | intros flat].
        apply preserves_bind; [apply preserves_lift_numpy | intros vecs].
        apply preserves_ret.
      * apply preserves_ret.
    + apply preserves_bind; [apply preserves_log | intros _; apply preserves_ret].
  - apply preserves_bind; [apply preserves_log | intros _; apply preserves_ret].
Qed.

Hypothesis f_int2ext_key : forall k s, f (set_int2ext_key k s) = f s.

Lemma preserves_derive_int2ext_key : preserves f derive_int2ext_key.
Proof.
  unfold derive_int2ext_key. apply preserves_get. intros s0.
  destruct (truthy_bytes (key_bytes s0) && truthy_str (key_dtype s0)).
  - apply preserves_bind; [apply preserves_lift_numpy | intros k].
    apply preserves_modify. apply f_int2ext_key.
  - apply preserves_ret.
Qed.

Lemma preserves_raw_ndarray : preserves f raw_ndarray.
Proof.
  unfold raw_ndarray.
  apply preserves_bind; [apply preserves_load_gzip | intros [vecs|]].
  2: apply preserves_ret.
  apply preserves_bind; [apply preserves_derive_int2ext_key | intros _].
  apply preserves_get. intros s0.
  destruct (int2ext_key s0) as [| |table];
    [apply preserves_raise | apply preserves_ret |].
  destruct (ndim vecs =? 2); [|apply preserves_ret].
  apply preserves_bind; [apply preserves_shape_at | intros k].
  apply preserves_bind; [apply preserves_shape_at | intros n].
  destruct (negb (k =? n)).
  - apply preserves_bind; [apply preserves_log | intros _; apply preserves_ret].
  - apply preserves_bind; [|intros _; apply preserves_ret].
    destruct (n =? 0); [apply preserves_log | apply preserves_ret].
Qed.

Hypothesis f_hook_call : forall v s, f (record_hook_call v s) = f s.

Lemma preserves_get_query_handler (T : Type) (build : ndarray -> result T) :
  preserves f (get_query_handler T build).
Proof.
  unfold get_query_handler.
  apply preserves_bind; [apply preserves_raw_ndarray | intros [v|]].
  2: apply preserves_ret.
  apply preserves_bind; [|intros t; apply preserves_ret].
  unfold build_advanced_index.
  apply preserves_bind; [apply preserves_modify, f_hook_call | intros _].
  destruct (build v); [apply preserves_ret | apply preserves_raise].
Qed.
End Frame.

(* ================================================================== *)
(** ** The read path, case by case *)
(* ================================================================== *)

(** No file: a warning and no array. *)
Lemma load_gzip_no_file (s : Store) :
  index_file s = None ->
  _load_gzip s
  = (emit WARNING data_not_found (emit INFO loading_index s), Ok None).
Proof. intros H. unfold_load. simpl. rewrite H. reflexivity. Qed.

(** The schema is unset: the file is not even opened. *)
Lemma load_gzip_no_schema (s : Store) (g : gzip_read) :
  index_file s = Some g ->
  truthy_nat (num_dim s) && truthy_str (dtype_ s) = false ->
  _load_gzip s = (emit INFO loading_index s, Ok None).
Proof. intros H Hs. unfold_load. simpl. rewrite H, Hs. reflexivity. Qed.

(** A stream that was not closed: an error record and no array. *)
Lemma load_gzip_eof (s : Store) :
  index_file s = Some (GzRaises EOFError) ->
  truthy_nat (num_dim s) && truthy_str (dtype_ s) = true ->
  _load_gzip s
  = (emit ERROR broken_incomplete (emit INFO loading_index s), Ok None).
Proof. intros H Hs. unfold_load. simpl. rewrite H, Hs. reflexivity. Qed.

(** The payload is read, viewed as elements and cut into rows; a numpy
    failure in either step leaves [_load_gzip] as an exception. *)
Lemma load_gzip_payload (s : Store) (buf : list byte) (D : nat) (t : string) :
  index_file s = Some (GzBytes buf) ->
  num_dim s = Some D -> D <> 0 ->
  dtype_ s = Some t -> truthy_str (Some t) = true ->
  _load_gzip s
  = (emit INFO loading_index s,
     match frombuffer buf t with
     | inl flat =>
         match reshape_rows flat D with
         | inl vecs => Ok (Some vecs)
         | inr e => Raise (exn_of_numpy e)
         end
     | inr e => Raise (exn_of_numpy e)
     end).
Proof.
  intros Hf Hd HD Ht Htt. unfold_load. simpl. rewrite Hf, Hd, Ht.
  destruct D as [|D']; [congruence|]. simpl truthy_nat. rewrite Htt. simpl.
  destruct (frombuffer buf t) as [flat|e]; simpl.
  - destruct (reshape_rows flat (S D')) as [vecs|e]; simpl.
    + reflexivity.
    + destruct e; reflexivity.
  - destruct e; reflexivity.
Qed.

(** What a loaded array looks like. *)
Lemma load_gzip_some_inv (s s1 : Store) (vecs : ndarray) :
  _load_gzip s = (s1, Ok (Some vecs)) ->
  exists D t buf,
    num_dim s = Some D /\ D <> 0 /\ dtype_ s = Some t
    /\ index_file s = Some (GzBytes buf)
    /\ of_name t = Some (dtype vecs)
    /\ shape vecs = [List.length buf / itemsize (dtype vecs) / D; D]
    /\ data vecs = buf
    /\ s1 = emit INFO loading_index s.
Proof.
  destruct (index_file s) as [g|] eqn:Hf.
  2:{ rewrite (load_gzip_no_file s Hf). discriminate. }
  destruct (truthy_nat (num_dim s) && truthy_str (dtype_ s)) eqn:Hs.
  2:{ rewrite (load_gzip_no_schema s g Hf Hs). discriminate. }
  apply andb_prop in Hs. destruct Hs as [Hn Ht].
  apply truthy_nat_true in Hn. destruct Hn as (D & HD & HD0).
  destruct (dtype_ s) as [t|] eqn:Hty; [|discriminate].
  destruct g as [buf|e].
  - rewrite (load_gzip_payload s buf D t Hf HD HD0 Hty Ht).
    unfold frombuffer.
    destruct (of_name t) as [d|] eqn:Hof; [|discriminate].
    destruct (List.length buf mod itemsize d =? 0); [|discriminate].
    unfold reshape_rows, size. simpl.
    destruct D as [|D']; [congruence|].
    destruct (_ mod S D' =? 0); [|discriminate].
    intros E. injection E. intros Ev Es. subst vecs s1. simpl.
    rewrite !Nat.mul_1_r.
    exists (S D'), t, buf. repeat split; auto.
  - unfold_load. simpl. rewrite Hf, HD, Hty.
    destruct D as [|D']; [congruence|]. simpl truthy_nat. rewrite Ht. simpl.
    destruct e; discriminate.
Qed.

Lemma raw_ndarray_load_none (s s1 : Store) :
  _load_gzip s = (s1, Ok None) -> raw_ndarray s = (s1, Ok None).
Proof. intros H. unfold raw_ndarray, bind. rewrite H. reflexivity. Qed.

Lemma raw_ndarray_load_raise (s s1 : Store) (e : exn) :
  _load_gzip s = (s1, Raise e) -> raw_ndarray s = (s1, Raise e).
Proof. intros H. unfold raw_ndarray, bind. rewrite H. reflexivity. Qed.

(** The key table disagrees with the rows: an error record, no array. *)
Lemma raw_ndarray_mismatch
    (s s1 s2 : Store) (vecs table : ndarray) (n d k : nat) (ks : list nat) :
  _load_gzip s = (s1, Ok (Some vecs)) ->
  derive_int2ext_key s1 = (s2, Ok tt) ->
  int2ext_key s2 = keys_table table ->
  shape vecs = [n; d] -> shape table = k :: ks -> k <> n ->
  raw_ndarray s = (emit ERROR (keys_vectors_inconsistent k n) s2, Ok None).
Proof.
  intros Hl Hd Hk Hv Ht Hne. unfold raw_ndarray, bind at 1. rewrite Hl.
  unfold bind at 1. rewrite Hd.
  unfold shape_at, ndim, log, bind, get, ret, modify. rewrite Hk, Hv, Ht. simpl.
  apply Nat.eqb_neq in Hne. rewrite Hne. reflexivity.
Qed.

(** The key table agrees with the rows: the loaded array is the result. *)
Lemma raw_ndarray_aligned
    (s s1 s2 : Store) (vecs table : ndarray) (n d : nat) (ks : list nat) :
  _load_gzip s = (s1, Ok (Some vecs)) ->
  derive_int2ext_key s1 = (s2, Ok tt) ->
  int2ext_key s2 = keys_table table ->
  shape vecs = [n; d] -> shape table = n :: ks ->
  raw_ndarray s
  = ((if n =? 0 then emit WARNING empty_index_loaded s2 else s2), Ok (Some vecs)).
Proof.
  intros Hl Hd Hk Hv Ht. unfold raw_ndarray, bind at 1. rewrite Hl.
  unfold bind at 1. rewrite Hd.
  unfold shape_at, ndim, log, bind, get, ret, modify. rewrite Hk, Hv, Ht. simpl.
  rewrite Nat.eqb_refl. simpl. destruct (n =? 0); reflexivity.
Qed.

(** Whenever [raw_ndarray] returns an array, it is of rank 2 and the key
    table in the store has one entry per row. *)
Lemma raw_ndarray_some_inv (s s2 : Store) (vecs : ndarray) :
  raw_ndarray s = (s2, Ok (Some vecs)) ->
  exists s1 table n d ks,
    _load_gzip s = (s1, Ok (Some vecs))
    /\ int2ext_key s2 = keys_table table
    /\ shape vecs = [n; d] /\ shape table = n :: ks.
Proof.
  unfold raw_ndarray, bind at 1.
  destruct (_load_gzip s) as [s1 [[v|]|e]] eqn:Hl; try (simpl; discriminate).
  unfold bind at 1.
  destruct (derive_int2ext_key s1) as [sd [[]|e]] eqn:Hd; try discriminate.
  unfold shape_at, ndim, log, bind, get, ret, modify.
  destruct (int2ext_key sd) as [| |table] eqn:Hk; try discriminate.
  destruct (shape v) as [|n [|d [|? ?]]] eqn:Hv; simpl; try discriminate.
  destruct (shape table) as [|k ks] eqn:Ht; simpl; try discriminate.
  destruct (k =? n) eqn:Ekn; simpl; try discriminate.
  apply Nat.eqb_eq in Ekn. subst k.
  intros E. exists s1, table, n, d, ks.
  assert (int2ext_key s2 = keys_table table /\ v = vecs) as [H1 H2].
  { destruct (n =? 0); simpl in E; injection E; intros; subst; auto. }
  subst v. auto.
Qed.


(* ================================================================== *)
(** ** Write path: the claims *)
(* ================================================================== *)

(** C1 (as stated) fails: on the very first append the chain of checks is
    skipped, so one key with two rows is accepted; and on a store of
    dimension 2 a batch of width 3 with one key for two rows is refused
    for its dimension, not for its count. *)
Lemma C1_count_unchecked_on_first_append :
  shape Examples.one_key = [1] /\ shape Examples.vecs2x3 = [2; 3]
  /\ snd (add Examples.one_key Examples.vecs2x3 (init 1)) = Ok tt
  /\ num_dim Examples.store3x2 = Some 2
  /\ snd (add Examples.one_key Examples.vecs2x3 Examples.store3x2)
     = Raise (ValueError (dim_mismatch 2 3 2)).
Proof. repeat split; reflexivity. Qed.

(** C1 (amended): once the dimension is set (and not zero), an append of
    rank-2 vectors whose key count differs from the row count fails and
    leaves the store as it was; the failure is the count mismatch when
    the vectors agree with the stored dimension and element type. *)
Theorem C1_count_mismatch_once_schema_set
    (s : Store) (keys vectors : ndarray) (n d k : nat) (ks : list nat) :
  truthy_nat (num_dim s) = true ->
  shape vectors = [n; d] -> shape keys = k :: ks -> k <> n ->
  (exists e, add keys vectors s = (s, Raise e))
  /\ (num_dim s = Some d -> dtype_ s = Some (name (dtype vectors)) ->
      add keys vectors s = (s, Raise (ValueError (count_mismatch k n)))).
Proof.
  intros Ht Hv Hk Hne. apply Nat.eqb_neq in Hne.
  unfold_add. rewrite Hv, Hk. simpl. rewrite Ht. simpl.
  destruct (opt_nat_eqb (num_dim s) d) eqn:Ed; simpl.
  - destruct (opt_str_eqb (dtype_ s) (name (dtype vectors))) eqn:Et; simpl.
    + rewrite Hne. simpl. split; [eexists; reflexivity | reflexivity].
    + split; [eexists; reflexivity|].
      intros _ Hty. apply opt_str_eqb_name in Hty. congruence.
  - split; [eexists; reflexivity|].
    intros Hd. apply opt_nat_eqb_eq in Hd. congruence.
Qed.

Lemma C1_count_mismatch_once_schema_set_witness :
  add Examples.one_key Examples.vecs2x2 Examples.store3x2
  = (Examples.store3x2, Raise (ValueError (count_mismatch 1 2))).
Proof.
  apply (C1_count_mismatch_once_schema_set
           Examples.store3x2 Examples.one_key Examples.vecs2x2 2 2 1 []);
    try reflexivity.
  simpl. lia.
Defined.

(** C4 (as stated) fails: a first append of zero-width vectors succeeds
    and records dimension 0, after which an append of width 3 is accepted
    and rewrites the schema. *)
Lemma C4_zero_dimension_is_not_fixed :
  snd (add Examples.one_key Examples.vecs1x0 (init 1)) = Ok tt
  /\ num_dim Examples.store_dim0 = Some 0
  /\ shape Examples.vecs1x3 = [1; 3]
  /\ snd (add Examples.one_key Examples.vecs1x3 Examples.store_dim0) = Ok tt
  /\ fst (add Examples.one_key Examples.vecs1x3 Examples.store_dim0) <> Examples.store_dim0.
Proof. repeat split; try reflexivity. discriminate. Qed.

(** C4 (amended): in a store whose dimension is fixed to some [D > 0],
    an append of rank-2 vectors of another width fails with the dimension
    mismatch, and every append that fails, whatever the reason, leaves the
    whole store as it was: nothing written, no key added, no count. *)
Theorem C4_failing_append_is_atomic
    (s : Store) (D : nat) (keys vectors : ndarray) :
  num_dim s = Some D -> D <> 0 ->
  (forall n d, shape vectors = [n; d] -> d <> D ->
     add keys vectors s = (s, Raise (ValueError (dim_mismatch n d D))))
  /\ (forall e, snd (add keys vectors s) = Raise e ->
      fst (add keys vectors s) = s).
Proof.
  intros HD HD0.
  assert (Ht : truthy_nat (num_dim s) = true).
  { apply truthy_nat_true. eauto. }
  split.
  - intros n d Hv Hne. unfold_add. rewrite Hv. simpl. rewrite Ht. simpl.
    rewrite HD. simpl.
    assert (E : (D =? d) = false) by (apply Nat.eqb_neq; congruence).
    rewrite E. reflexivity.
  - intros e He.
    destruct (add keys vectors s) as [s' r] eqn:E. simpl in *. subst r.
    eapply add_set_raise_unchanged; eauto.
Qed.

Lemma C4_failing_append_is_atomic_witness :
  add Examples.one_key Examples.vecs2x3 Examples.store3x2
  = (Examples.store3x2, Raise (ValueError (dim_mismatch 2 3 2))).
Proof.
  apply (proj1 (C4_failing_append_is_atomic
                  Examples.store3x2 2 Examples.one_key Examples.vecs2x3
                  eq_refl (fun H => Nat.neq_succ_0 1 H)) 2 3 eq_refl).
  simpl. lia.
Defined.

(** A successful append of rank-2 vectors leaves their width and element
    type in the schema, whatever the store was. *)
Lemma add_ok_schema (s s1 : Store) (keys vectors : ndarray) (n d : nat) :
  add keys vectors s = (s1, Ok tt) -> shape vectors = [n; d] ->
  num_dim s1 = Some d /\ dtype_ s1 = Some (name (dtype vectors)).
Proof.
  intros Ha Hv. destruct (truthy_nat (num_dim s)) eqn:Ht.
  - destruct (add_set_ok_inv s s1 keys vectors Ht Ha)
      as (n' & d' & ks & Hv' & _ & Hd & Hty & _ & ->).
    rewrite Hv in Hv'. injection Hv' as -> ->. auto.
  - revert Ha. unfold_add. rewrite Hv. simpl. rewrite Ht. simpl.
    destruct (shape keys) as [|k ks]; simpl; [discriminate|].
    intros E. injection E as <-. auto.
Qed.

(** With the dimension set, no operation touches the schema. *)
Lemma step_keeps_schema
    (T : Type) (build : ndarray -> result T) (s : Store) (o : op) :
  truthy_nat (num_dim s) = true ->
  num_dim (step T build s o) = num_dim s
  /\ dtype_ (step T build s o) = dtype_ s.
Proof.
  intros Ht. destruct o as [keys vectors|e keys vectors| | |]; simpl.
  - destruct (add keys vectors s) as [s' [[]|e]] eqn:E; simpl.
    + destruct (add_set_ok_inv s s' keys vectors Ht E)
        as (n & d & ks & _ & _ & _ & _ & _ & ->). auto.
    + rewrite (add_set_raise_unchanged s s' keys vectors e Ht E). auto.
  - now rewrite add_refused_set_unchanged.
  - split.
    + apply (preserves_load_gzip num_dim); reflexivity.
    + apply (preserves_load_gzip dtype_); reflexivity.
  - split.
    + apply (preserves_raw_ndarray num_dim); reflexivity.
    + apply (preserves_raw_ndarray dtype_); reflexivity.
  - split.
    + apply (preserves_get_query_handler num_dim); reflexivity.
    + apply (preserves_get_query_handler dtype_); reflexivity.
Qed.

Lemma run_keeps_schema
    (T : Type) (build : ndarray -> result T) (ops : list op) (s : Store) :
  truthy_nat (num_dim s) = true ->
  num_dim (run T build s ops) = num_dim s
  /\ dtype_ (run T build s ops) = dtype_ s.
Proof.
  revert s. induction ops as [|o ops IH]; intros s Ht; simpl; [auto|].
  destruct (step_keeps_schema T build s o Ht) as [Hn Hd].
  destruct (IH (step T build s o)) as [Hn' Hd'].
  - now rewrite Hn.
  - split; congruence.
Qed.

(** C3 (as stated, for any [D >= 0]) fails at [D = 0]: the first append
    succeeds and records dimension 0 and float32, and the next successful
    append replaces both. *)
Lemma C3_zero_dimension_is_replaced :
  add Examples.one_key Examples.vecs1x0 (init 1) = (Examples.store_dim0, Ok tt)
  /\ num_dim Examples.store_dim0 = Some 0
  /\ dtype_ Examples.store_dim0 = Some "float32"%string
  /\ snd (add Examples.one_key Examples.vecs1x3 Examples.store_dim0) = Ok tt
  /\ num_dim (fst (add Examples.one_key Examples.vecs1x3 Examples.store_dim0)) = Some 3
  /\ dtype_ (fst (add Examples.one_key Examples.vecs1x3 Examples.store_dim0))
     = Some "float64"%string.
Proof. repeat split; reflexivity. Qed.

(** C3 (amended): once an append of vectors of width [D >= 1] succeeds,
    [num_dim] is [D] and [dtype] is the element type of these vectors, and
    they stay so after every later sequence of operations (appends that
    return, appends that raise, loads and queries). *)
Theorem C3_schema_is_fixed_by_first_append
    (T : Type) (build : ndarray -> result T)
    (s s1 : Store) (keys vectors : ndarray) (n D : nat) (ops : list op) :
  add keys vectors s = (s1, Ok tt) ->
  shape vectors = [n; D] -> D <> 0 ->
  num_dim (run T build s1 ops) = Some D
  /\ dtype_ (run T build s1 ops) = Some (name (dtype vectors)).
Proof.
  intros Ha Hv HD.
  destruct (add_ok_schema s s1 keys vectors n D Ha Hv) as [Hn Hd].
  assert (Ht : truthy_nat (num_dim s1) = true).
  { apply truthy_nat_true. eauto. }
  destruct (run_keeps_schema T build ops s1 Ht) as [Hn' Hd'].
  split; congruence.
Qed.

Lemma C3_schema_is_fixed_by_first_append_witness :
  num_dim (run unit base_build Examples.store3x2
             [op_add Examples.one_key Examples.vecs1x3; op_raw_ndarray;
              op_add Examples.keys3 Examples.vecs3x2; op_get_query_handler])
  = Some 2
  /\ dtype_ (run unit base_build Examples.store3x2
               [op_add Examples.one_key Examples.vecs1x3; op_raw_ndarray;
                op_add Examples.keys3 Examples.vecs3x2; op_get_query_handler])
     = Some "float32"%string.
Proof.
  apply (C3_schema_is_fixed_by_first_append unit base_build
           (init 1) Examples.store3x2 Examples.keys3 Examples.vecs3x2 3 2).
  - reflexivity.
  - reflexivity.
  - simpl. lia.
Defined.

(* ------------------------------------------------------------------ *)

Lemma counted_appended
    (D : nat) (T KT : DType) (s : Store) (keys vectors : ndarray) (n : nat) :
  shape vectors = [n; D] -> dtype vectors = T -> wf vectors ->
  shape keys = [n] -> dtype keys = KT -> wf keys ->
  List.length (key_bytes s) = _size s * itemsize KT ->
  List.length (write_handler s) = _size s * (D * itemsize T) ->
  let s' := appended keys vectors n s in
  List.length (key_bytes s') = _size s' * itemsize KT
  /\ List.length (write_handler s') = _size s' * (D * itemsize T)
  /\ _size s' = _size s + n
  /\ key_dtype s' = Some (name KT).
Proof.
  intros Hv HT Wv Hk HKT Wk Lk Lw. simpl.
  unfold wf, size in Wv, Wk. rewrite Hv, HT in Wv. rewrite Hk, HKT in Wk.
  simpl in Wv, Wk. unfold tobytes. rewrite !length_app, Lk, Lw, Wv, Wk, HKT.
  repeat split; lia.
Qed.

Lemma add_counted
    (D : nat) (T KT : DType) (s : Store) (b : batch) :
  counted D T KT s -> consistent D T KT b ->
  exists s',
    add (fst b) (snd b) s = (s', Ok tt)
    /\ counted D T KT s' /\ _size s' = _size s + batch_rows b.
Proof.
  intros (Hs & Lk & Lw) (n & Hv & HT & Wv & Hk & HKT & Wk).
  unfold batch_rows. rewrite Hv. simpl hd.
  destruct (truthy_nat (num_dim s)) eqn:Ht.
  - destruct (Hs eq_refl) as (Hd & Hty & Hkt).
    rewrite <- HT in Hty. rewrite <- HKT in Hkt.
    eexists. split; [apply (add_set_ok s _ _ n D []); auto|].
    destruct (counted_appended D T KT s _ _ n Hv HT Wv Hk HKT Wk Lk Lw)
      as (L1 & L2 & L3 & L4).
    split; [|exact L3]. split; [|split; assumption].
    intros _. simpl. rewrite HT in Hty. auto.
  - eexists. split; [apply (add_unset s _ _ n D n []); auto|].
    set (s0 := set_schema D (name (dtype (snd b))) s).
    destruct (counted_appended D T KT s0 _ _ n Hv HT Wv Hk HKT Wk Lk Lw)
      as (L1 & L2 & L3 & L4).
    split; [|exact L3]. split; [|split; assumption].
    intros _. simpl. rewrite HT, HKT. auto.
Qed.

Lemma add_all_counted
    (D : nat) (T KT : DType) (bs : list batch) (s : Store) :
  counted D T KT s -> Forall (consistent D T KT) bs ->
  exists s',
    add_all bs s = (s', Ok tt)
    /\ counted D T KT s' /\ _size s' = _size s + total_rows bs.
Proof.
  intros Hc Hbs. revert s Hc.
  induction Hbs as [|b bs Hb _ IH]; intros s Hc.
  - exists s. unfold total_rows. simpl. split; [reflexivity|]. split; [exact Hc|lia].
  - destruct (add_counted D T KT s b Hc Hb) as (s1 & Ha & Hc1 & Hn1).
    destruct (IH s1 Hc1) as (s2 & Ha2 & Hc2 & Hn2).
    exists s2. split; [|split; [exact Hc2|]].
    + destruct b as [keys vectors]. simpl in *. unfold bind. now rewrite Ha.
    + unfold total_rows in *. simpl. lia.
Qed.

(** The bytes handed to the stream are readable in the file only once
    the stream is closed: [add] leaves [index_file] as it is. *)
Lemma add_keeps_file (keys vectors : ndarray) :
  preserves index_file (add keys vectors).
Proof.
  unfold add, validate.
  apply preserves_bind; [|intros _].
  { destruct (negb (ndim vectors =? 2));
      [apply preserves_raise | apply preserves_ret]. }
  apply preserves_bind; [|intros _].
  { apply preserves_get. intros s0.
    destruct (negb (truthy_nat (num_dim s0))).
    - apply preserves_bind; [apply preserves_shape_at | intros d].
      now apply preserves_modify.
    - apply preserves_bind; [apply preserves_shape_at | intros d].
      destruct (negb (opt_nat_eqb (num_dim s0) d)).
      + apply preserves_bind; [apply preserves_shape_at | intros n].
        apply preserves_raise.
      + destruct (negb (opt_str_eqb (dtype_ s0) (name (dtype vectors))));
          [apply preserves_raise|].
        apply preserves_bind; [apply preserves_shape_at | intros k].
        apply preserves_bind; [apply preserves_shape_at | intros n].
        destruct (negb (k =? n)); [apply preserves_raise|].
        destruct (negb (opt_str_eqb (key_dtype s0) (name (dtype keys))));
          [apply preserves_raise | apply preserves_ret]. }
  apply preserves_bind; [now apply preserves_modify | intros _].
  apply preserves_bind; [now apply preserves_modify | intros _].
  apply preserves_bind; [now apply preserves_modify | intros _].
  apply preserves_bind; [apply preserves_shape_at | intros k].
  now apply preserves_modify.
Qed.

Lemma add_all_keeps_file (bs : list batch) :
  preserves index_file (add_all bs).
Proof.
  induction bs as [|[keys vectors] bs IH]; simpl.
  - apply preserves_ret.
  - apply preserves_bind; [apply add_keeps_file | intros _; exact IH].
Qed.

(** C8: from a new store, a sequence of appends of batches that share
    dimension [D], element type [T] and key type [KT], each with as many
    keys as rows, succeeds as a whole; afterwards the count is the sum of
    the row counts, the key buffer holds [count * sizeof KT] bytes and the
    stream has received [count * D * sizeof T] bytes, so the count is
    either length divided by its unit (the second one when [D > 0],
    where the quotient is defined), and closing the stream makes these
    bytes the payload of the file. *)
Theorem C8_count_is_sum_of_rows
    (c D : nat) (T KT : DType) (bs : list batch) :
  Forall (consistent D T KT) bs ->
  let s := fst (add_all bs (init c)) in
  snd (add_all bs (init c)) = Ok tt
  /\ _size s = total_rows bs
  /\ List.length (key_bytes s) = _size s * itemsize KT
  /\ List.length (write_handler s) = _size s * (D * itemsize T)
  /\ _size s = List.length (key_bytes s) / itemsize KT
  /\ (D <> 0 -> _size s = List.length (write_handler s) / (D * itemsize T))
  /\ index_file (close s) = Some (GzBytes (write_handler s)).
Proof.
  intros Hbs.
  assert (H0 : counted D T KT (init c)).
  { split; [discriminate | split; reflexivity]. }
  destruct (add_all_counted D T KT bs (init c) H0 Hbs)
    as (s' & Ha & (_ & Lk & Lw) & Hn).
  rewrite Ha. simpl fst. simpl snd. simpl in Hn.
  pose proof (itemsize_pos KT) as PK. pose proof (itemsize_pos T) as PT.
  repeat split; auto.
  - rewrite Lk. symmetry. apply Nat.div_mul. lia.
  - intros HD. rewrite Lw. symmetry. apply Nat.div_mul. nia.
  - assert (Hf : index_file s' = None).
    { change s' with (fst (s', @Ok unit tt)). rewrite <- Ha.
      apply (add_all_keeps_file bs (init c)). }
    unfold close. simpl. rewrite Hf. reflexivity.
Qed.

Lemma C8_count_is_sum_of_rows_witness :
  let bs := [(Examples.keys3, Examples.vecs3x2); (Examples.one_key, Examples.vecs1x2)] in
  Forall (consistent 2 float32 int64) bs
  /\ _size (fst (add_all bs (init 1))) = 4
  /\ List.length (key_bytes (fst (add_all bs (init 1)))) = 32
  /\ List.length (write_handler (fst (add_all bs (init 1)))) = 32.
Proof.
  intros bs.
  assert (H : Forall (consistent 2 float32 int64) bs).
  { repeat constructor.
    - exists 3. repeat split; reflexivity.
    - exists 1. repeat split; reflexivity. }
  split; [exact H|].
  destruct (C8_count_is_sum_of_rows 1 2 float32 int64 bs H)
    as (_ & Hn & Hk & Hw & _).
  rewrite Hk, Hw, Hn. repeat split; reflexivity.
Defined.

(* ================================================================== *)
(** ** Read path: the claims *)
(* ================================================================== *)

(** A payload that is not a whole number of rows makes numpy fail,
    in [frombuffer] or in [reshape]. *)
Lemma ragged_payload_fails (buf : list byte) (D : nat) (T : DType) :
  D <> 0 -> List.length buf mod (D * itemsize T) <> 0 ->
  exists e,
    match frombuffer buf (name T) with
    | inl flat =>
        match reshape_rows flat D with
        | inl vecs => Ok (Some vecs)
        | inr e => Raise (exn_of_numpy e)
        end
    | inr e => Raise (exn_of_numpy e)
    end = Raise (ValueError (numpy_value e)).
Proof.
  intros HD Hm. pose proof (itemsize_pos T) as P.
  unfold frombuffer. rewrite of_name_name.
  destruct (List.length buf mod itemsize T =? 0) eqn:E1.
  - unfold reshape_rows, size. simpl. rewrite Nat.mul_1_r.
    destruct D as [|D']; [congruence|].
    destruct (_ mod S D' =? 0) eqn:E2.
    + exfalso. apply Hm.
      apply Nat.eqb_eq in E1, E2.
      apply Nat.Div0.div_exact in E1, E2.
      rewrite E1, E2 at 1.
      replace (itemsize T * (S D' * (List.length buf / itemsize T / S D')))
        with ((List.length buf / itemsize T / S D') * (S D' * itemsize T)) by lia.
      apply Nat.Div0.mod_mul.
    + eexists. reflexivity.
  - eexists. reflexivity.
Qed.

(** C2 (as stated) fails: with dimension 2 and float32, a payload of
    four bytes (half a row) makes [_load_gzip] raise the [ValueError] of
    [reshape]; nothing is returned and no error record is written. *)
Lemma C2_ragged_payload_raises :
  let s := set_index_file (Some (GzBytes (Examples.zeros 4))) Examples.store3x2 in
  num_dim s = Some 2 /\ dtype_ s = Some (name float32)
  /\ 4 mod (2 * itemsize float32) <> 0
  /\ _load_gzip s
     = (emit INFO loading_index s,
        Raise (ValueError (numpy_value (cannot_reshape 1 2))))
  /\ snd (_load_gzip s) <> Ok None.
Proof. repeat split; try reflexivity; discriminate. Qed.

(** C2 (amended): with dimension [D > 0] and element type [T] set, loading
    a file whose payload length is not a multiple of [D * sizeof T] raises
    numpy's [ValueError] out of [_load_gzip] and out of [raw_ndarray]; the
    only log record is the announcement of the load. *)
Theorem C2_ragged_payload_raises_value_error
    (s : Store) (buf : list byte) (D : nat) (T : DType) :
  num_dim s = Some D -> D <> 0 -> dtype_ s = Some (name T) ->
  index_file s = Some (GzBytes buf) ->
  List.length buf mod (D * itemsize T) <> 0 ->
  exists e,
    _load_gzip s = (emit INFO loading_index s, Raise (ValueError (numpy_value e)))
    /\ raw_ndarray s = (emit INFO loading_index s, Raise (ValueError (numpy_value e))).
Proof.
  intros Hd HD Ht Hf Hm.
  destruct (ragged_payload_fails buf D T HD Hm) as [e He].
  exists e.
  assert (Hl : _load_gzip s
               = (emit INFO loading_index s, Raise (ValueError (numpy_value e)))).
  { rewrite (load_gzip_payload s buf D (name T) Hf Hd HD Ht (name_nonempty T)).
    now rewrite He. }
  split; [exact Hl | now apply raw_ndarray_load_raise].
Qed.

Lemma C2_ragged_payload_raises_value_error_witness :
  exists e,
    _load_gzip (set_index_file (Some (GzBytes (Examples.zeros 4))) Examples.store3x2)
    = (emit INFO loading_index
         (set_index_file (Some (GzBytes (Examples.zeros 4))) Examples.store3x2),
       Raise (ValueError (numpy_value e)))
    /\ raw_ndarray (set_index_file (Some (GzBytes (Examples.zeros 4))) Examples.store3x2)
       = (emit INFO loading_index
            (set_index_file (Some (GzBytes (Examples.zeros 4))) Examples.store3x2),
          Raise (ValueError (numpy_value e))).
Proof.
  apply (C2_ragged_payload_raises_value_error
           (set_index_file (Some (GzBytes (Examples.zeros 4))) Examples.store3x2)
           (Examples.zeros 4) 2 float32).
  - reflexivity.
  - lia.
  - reflexivity.
  - reflexivity.
  - simpl. lia.
Defined.

(** C6: when there is no file, [_load_gzip] and [raw_ndarray] return no
    array and the query path returns nothing, none of them raises, and
    the only trace is the warning; a new store is such a store. *)
Theorem C6_missing_file_is_empty
    (T : Type) (build : ndarray -> result T) (s : Store) :
  index_file s = None ->
  _load_gzip s = (emit WARNING data_not_found (emit INFO loading_index s), Ok None)
  /\ raw_ndarray s = (emit WARNING data_not_found (emit INFO loading_index s), Ok None)
  /\ get_query_handler T build s
     = (emit WARNING data_not_found (emit INFO loading_index s), Ok None).
Proof.
  intros Hf. pose proof (load_gzip_no_file s Hf) as Hl.
  pose proof (raw_ndarray_load_none s _ Hl) as Hr.
  repeat split; auto.
  unfold get_query_handler, bind. rewrite Hr. reflexivity.
Qed.

Lemma C6_missing_file_is_empty_witness :
  snd (raw_ndarray (init 1)) = Ok None
  /\ logger (fst (raw_ndarray (init 1)))
     = [(INFO, loading_index); (WARNING, data_not_found)].
Proof.
  destruct (C6_missing_file_is_empty unit base_build (init 1) eq_refl)
    as (_ & Hr & _).
  rewrite Hr. split; reflexivity.
Defined.

(** C7: when the file loads as a rank-2 array but the key table, as it
    stands after its derivation from the key buffer, has a length other
    than the row count, [raw_ndarray] logs the inconsistency as an error
    and returns no array. *)
Theorem C7_key_count_mismatch_is_empty
    (s s1 s2 : Store) (vecs table : ndarray) (n d k : nat) (ks : list nat) :
  _load_gzip s = (s1, Ok (Some vecs)) ->
  shape vecs = [n; d] ->
  derive_int2ext_key s1 = (s2, Ok tt) ->
  int2ext_key s2 = keys_table table ->
  shape table = k :: ks -> k <> n ->
  snd (raw_ndarray s) = Ok None
  /\ logger (fst (raw_ndarray s))
     = (logger s2 ++ [(ERROR, keys_vectors_inconsistent k n)])%list.
Proof.
  intros Hl Hv Hd Hk Ht Hne.
  rewrite (raw_ndarray_mismatch s s1 s2 vecs table n d k ks Hl Hd Hk Hv Ht Hne).
  split; reflexivity.
Qed.

Lemma C7_key_count_mismatch_is_empty_witness :
  let s := close (fst (add Examples.one_key Examples.vecs2x2 (init 1))) in
  snd (raw_ndarray s) = Ok None
  /\ logger (fst (raw_ndarray s))
     = [(INFO, loading_index); (ERROR, keys_vectors_inconsistent 1 2)].
Proof.
  intros s.
  apply (C7_key_count_mismatch_is_empty
           s (emit INFO loading_index s)
           (set_int2ext_key Examples.one_key (emit INFO loading_index s))
           Examples.vecs2x2 Examples.one_key 2 2 1 []).
  - reflexivity.
  - reflexivity.
  - reflexivity.
  - reflexivity.
  - reflexivity.
  - simpl. lia.
Defined.

(** The key table is rebuilt from a buffer that holds whole keys. *)
Lemma derive_int2ext_key_ok (s : Store) (table : ndarray) (t : string) :
  truthy_bytes (key_bytes s) = true ->
  key_dtype s = Some t -> truthy_str (Some t) = true ->
  frombuffer (key_bytes s) t = inl table ->
  derive_int2ext_key s = (set_int2ext_key table s, Ok tt).
Proof.
  intros Hb Hk Ht Hf. unfold derive_int2ext_key, bind, get.
  rewrite Hk, Hb, Ht. unfold the_str. rewrite Hf. reflexivity.
Qed.

(** C5 (as stated, for every array [V]) fails in three ways.  With no
    key the key table is never built, and a new indexer has none: reading
    the attribute raises.  With dimension 0 the file is never read, and
    nothing is returned.  And the schema is the type's name, which says
    nothing of the byte order: a big-endian [[1.0, 2.0]] comes back as a
    native array over the same bytes, whose elements are other numbers. *)
Lemma C5_empty_batch_does_not_round_trip :
  (wf Examples.vecs0x2 /\ wf Examples.no_keys
   /\ snd (add Examples.no_keys Examples.vecs0x2 (init 1)) = Ok tt
   /\ snd (raw_ndarray (close (fst (add Examples.no_keys Examples.vecs0x2 (init 1)))))
      = Raise AttributeError)
  /\ (wf Examples.vecs1x0 /\ wf Examples.one_key
      /\ snd (add Examples.one_key Examples.vecs1x0 (init 1)) = Ok tt
      /\ snd (raw_ndarray (close (fst (add Examples.one_key Examples.vecs1x0 (init 1)))))
         = Ok None)
  /\ (wf Examples.vecs1x2_be /\ wf Examples.one_key
      /\ snd (add Examples.one_key Examples.vecs1x2_be (init 1)) = Ok tt
      /\ exists loaded,
           snd (raw_ndarray
                  (close (fst (add Examples.one_key Examples.vecs1x2_be (init 1)))))
           = Ok (Some loaded)
           /\ loaded <> Examples.vecs1x2_be
           /\ item loaded 0 <> item Examples.vecs1x2_be 0).
Proof.
  repeat split; try reflexivity.
  eexists. split; [reflexivity|]. split; discriminate.
Qed.

(** C5 (amended): for [N >= 1] and [D >= 1], appending a well-formed
    [N x D] array [V] with [N] keys [K], both in native byte order, to a
    new store, closing the stream and materializing gives back [V] itself
    (same type and byte order, same shape, same bytes, hence the same
    elements) and leaves [K] as the key table. *)
Theorem C5_round_trip
    (c : nat) (V K : ndarray) (n D : nat) :
  wf V -> wf K -> shape V = [n; D] -> shape K = [n] ->
  byteorder V = native -> byteorder K = native ->
  n <> 0 -> D <> 0 ->
  let s := close (fst (add K V (init c))) in
  snd (add K V (init c)) = Ok tt
  /\ snd (raw_ndarray s) = Ok (Some V)
  /\ int2ext_key (fst (raw_ndarray s)) = keys_table K.
Proof.
  intros WV WK HV HK OV OK Hn HD s.
  assert (Ha : add K V (init c)
               = (appended K V n (set_schema D (name (dtype V)) (init c)), Ok tt)).
  { apply (add_unset (init c) K V n D n []); auto. }
  subst s. rewrite Ha. simpl fst. simpl snd.
  set (s := close _).
  destruct (frombuffer_reshape_2d V n D WV HV HD OV) as (flat & Hfb & Hrs).
  assert (Hl : _load_gzip s = (emit INFO loading_index s, Ok (Some V))).
  { rewrite (load_gzip_payload s (tobytes V) D (name (dtype V)));
      try reflexivity; auto using name_nonempty.
    now rewrite Hfb, Hrs. }
  assert (Hb : truthy_bytes (tobytes K) = true).
  { unfold tobytes. unfold wf, size in WK. rewrite HK in WK. simpl in WK.
    pose proof (itemsize_pos (dtype K)).
    destruct (data K); [simpl in WK; nia | reflexivity]. }
  assert (Hd : derive_int2ext_key (emit INFO loading_index s)
               = (set_int2ext_key K (emit INFO loading_index s), Ok tt)).
  { apply (derive_int2ext_key_ok _ K (name (dtype K))).
    - exact Hb.
    - reflexivity.
    - apply name_nonempty.
    - apply (frombuffer_tobytes_1d K n WK HK OK). }
  pose proof (raw_ndarray_aligned s _ _ V K n D [] Hl Hd eq_refl HV HK) as Hr.
  rewrite Hr. simpl snd.
  apply Nat.eqb_neq in Hn. rewrite Hn. simpl.
  repeat split; auto.
Qed.

Lemma C5_round_trip_witness :
  let s := close (fst (add Examples.keys3 Examples.vecs3x2 (init 1))) in
  snd (add Examples.keys3 Examples.vecs3x2 (init 1)) = Ok tt
  /\ snd (raw_ndarray s) = Ok (Some Examples.vecs3x2)
  /\ int2ext_key (fst (raw_ndarray s)) = keys_table Examples.keys3.
Proof.
  apply (C5_round_trip 1 Examples.vecs3x2 Examples.keys3 3 2).
  - reflexivity.
  - reflexivity.
  - reflexivity.
  - reflexivity.
  - reflexivity.
  - reflexivity.
  - lia.
  - lia.
Defined.

(** C9 (as stated, with a non-empty array) fails: with an empty payload,
    an empty key buffer and a zero-length key table, materializing
    returns the [0 x 2] array, which has no element, and the query path
    passes it to the hook and returns the hook's answer. *)
Lemma C9_empty_array_reaches_the_hook :
  let s := set_int2ext_key Examples.no_keys
             (close (fst (add Examples.no_keys Examples.vecs0x2 (init 1)))) in
  snd (raw_ndarray s) = Ok (Some Examples.vecs0x2)
  /\ shape Examples.vecs0x2 = [0; 2] /\ size Examples.vecs0x2 = 0
  /\ hook_calls (fst (get_query_handler nat (fun v => Ok (size v)) s))
     = [Examples.vecs0x2]
  /\ snd (get_query_handler nat (fun v => Ok (size v)) s) = Ok (Some 0).
Proof. repeat split; reflexivity. Qed.

(** C9 (amended): the query path calls the hook exactly when
    [raw_ndarray] returns an array, once and with that array, which then
    has rank 2, the width of the schema, and as many rows as the key table
    in the store has entries; the array may have no row at all.  When
    [raw_ndarray] returns nothing, or raises, the hook is not called and
    the query path returns nothing, or raises the same. *)
Theorem C9_hook_gets_aligned_array
    (T : Type) (build : ndarray -> result T) (s : Store) :
  match raw_ndarray s with
  | (s1, Ok (Some vecs)) =>
      hook_calls (fst (get_query_handler T build s))
      = (hook_calls s ++ [vecs])%list
      /\ snd (get_query_handler T build s)
         = match build vecs with Ok t => Ok (Some t) | Raise e => Raise e end
      /\ exists table n D ks,
           num_dim s = Some D /\ shape vecs = [n; D]
           /\ int2ext_key s1 = keys_table table /\ shape table = n :: ks
  | (s1, Ok None) =>
      hook_calls (fst (get_query_handler T build s)) = hook_calls s
      /\ snd (get_query_handler T build s) = Ok None
  | (s1, Raise e) =>
      hook_calls (fst (get_query_handler T build s)) = hook_calls s
      /\ snd (get_query_handler T build s) = Raise e
  end.
Proof.
  pose proof (preserves_raw_ndarray hook_calls
                (fun _ _ _ => eq_refl) (fun _ _ => eq_refl) s) as Hh.
  unfold get_query_handler, build_advanced_index, bind, modify, ret, raise.
  destruct (raw_ndarray s) as [s1 [[vecs|]|e]] eqn:Hr; simpl in Hh.
  - destruct (raw_ndarray_some_inv s s1 vecs Hr)
      as (s0 & table & n & d & ks & Hl & Hk & Hv & Ht).
    destruct (load_gzip_some_inv s s0 vecs Hl)
      as (D & t & buf & HD & _ & _ & _ & _ & Hs & _).
    assert (d = D) as -> by congruence.
    assert (Hc : hook_calls (record_hook_call vecs s1)
                 = (hook_calls s ++ [vecs])%list).
    { simpl. now rewrite Hh. }
    destruct (build vecs) as [r|e]; simpl; (split; [exact Hc|]);
      (split; [reflexivity|]); exists table, n, D, ks; auto.
  - auto.
  - auto.
Qed.

(** C10: [_load_gzip] and [raw_ndarray] leave [num_dim], [dtype],
    [key_bytes], [key_dtype], [compress_level] and [_size] as they were,
    and also the stream and the file; [_load_gzip] leaves the key table
    alone as well, so of the attributes only [int2ext_key] can change, and
    only in [raw_ndarray].  The hook is not called. *)
Theorem C10_load_leaves_write_state (s : Store) :
  (write_state (fst (_load_gzip s)) = write_state s
   /\ int2ext_key (fst (_load_gzip s)) = int2ext_key s
   /\ hook_calls (fst (_load_gzip s)) = hook_calls s)
  /\ (write_state (fst (raw_ndarray s)) = write_state s
      /\ hook_calls (fst (raw_ndarray s)) = hook_calls s).
Proof.
  repeat split.
  - apply (preserves_load_gzip write_state). reflexivity.
  - apply (preserves_load_gzip int2ext_key). reflexivity.
  - apply (preserves_load_gzip hook_calls). reflexivity.
  - apply (preserves_raw_ndarray write_state); reflexivity.
  - apply (preserves_raw_ndarray hook_calls); reflexivity.
Qed.

(* ================================================================== *)
(** ** The scenarios of the specification *)
(* ================================================================== *)

Example scenario_round_trip :
  let s := close Examples.store3x2 in
  snd (raw_ndarray s) = Ok (Some Examples.vecs3x2)
  /\ int2ext_key (fst (raw_ndarray s)) = keys_table Examples.keys3.
Proof. split; reflexivity. Qed.

Example scenario_fresh_store :
  snd (raw_ndarray (init 1)) = Ok None.
Proof. reflexivity. Qed.

(* ================================================================== *)
(** ** More on the write path *)
(* ================================================================== *)

(** X1: vectors of rank other than 2 are refused with the shape error by
    every store, set or unset, and nothing is touched. *)
Theorem X1_rank_is_checked_first (s : Store) (keys vectors : ndarray) :
  ndim vectors <> 2 ->
  add keys vectors s = (s, Raise (ValueError (bad_rank (shape vectors)))).
Proof. apply add_bad_rank. Qed.

Lemma X1_rank_is_checked_first_witness :
  add Examples.one_key Examples.keys3 (init 1)
  = (init 1, Raise (ValueError (bad_rank [3]))).
Proof.
  apply (X1_rank_is_checked_first (init 1) Examples.one_key Examples.keys3).
  unfold ndim. simpl. lia.
Defined.

(** X2: once the dimension is set, vectors of the right width but of
    another element type are refused with the [TypeError] that names both
    types, whatever the keys are, and nothing is touched. *)
Theorem X2_dtype_mismatch_is_a_type_error
    (s : Store) (keys vectors : ndarray) (n d : nat) :
  truthy_nat (num_dim s) = true ->
  shape vectors = [n; d] -> num_dim s = Some d ->
  dtype_ s <> Some (name (dtype vectors)) ->
  add keys vectors s
  = (s, Raise (TypeError (dtype_mismatch (name (dtype vectors)) (dtype_ s)))).
Proof.
  intros Ht Hv Hd Hty. unfold_add. rewrite Hv. simpl. rewrite Ht. simpl.
  rewrite (proj2 (opt_nat_eqb_eq _ _) Hd). simpl.
  destruct (opt_str_eqb (dtype_ s) (name (dtype vectors))) eqn:E; simpl.
  - apply opt_str_eqb_name in E. contradiction.
  - reflexivity.
Qed.

Lemma X2_dtype_mismatch_is_a_type_error_witness :
  add Examples.one_key Examples.vecs1x2_f64 Examples.store3x2
  = (Examples.store3x2,
     Raise (TypeError (dtype_mismatch "float64" (Some "float32"%string)))).
Proof.
  apply (X2_dtype_mismatch_is_a_type_error
           Examples.store3x2 Examples.one_key Examples.vecs1x2_f64 1 2).
  - reflexivity.
  - reflexivity.
  - reflexivity.
  - simpl. discriminate.
Defined.

(** X3: once the dimension is set, a batch that passes the dimension,
    element type and count checks but whose keys are not of the stored key
    type is refused with the key [TypeError]; this includes a store whose
    key type is still unset. *)
Theorem X3_key_dtype_mismatch_is_a_type_error
    (s : Store) (keys vectors : ndarray) (n d : nat) (ks : list nat) :
  truthy_nat (num_dim s) = true ->
  shape vectors = [n; d] -> shape keys = n :: ks ->
  num_dim s = Some d -> dtype_ s = Some (name (dtype vectors)) ->
  key_dtype s <> Some (name (dtype keys)) ->
  add keys vectors s
  = (s, Raise (TypeError (key_dtype_mismatch (name (dtype keys)) (key_dtype s)))).
Proof.
  intros Ht Hv Hk Hd Hty Hkt. unfold_add. rewrite Hv, Hk. simpl. rewrite Ht. simpl.
  rewrite (proj2 (opt_nat_eqb_eq _ _) Hd). simpl.
  rewrite (proj2 (opt_str_eqb_name _ _) Hty). simpl.
  rewrite Nat.eqb_refl. simpl.
  destruct (opt_str_eqb (key_dtype s) (name (dtype keys))) eqn:E; simpl.
  - apply opt_str_eqb_name in E. contradiction.
  - reflexivity.
Qed.

Lemma X3_key_dtype_mismatch_is_a_type_error_witness :
  add Examples.one_key_i32 Examples.vecs1x2 Examples.store3x2
  = (Examples.store3x2,
     Raise (TypeError (key_dtype_mismatch "int32" (Some "int64"%string)))).
Proof.
  apply (X3_key_dtype_mismatch_is_a_type_error
           Examples.store3x2 Examples.one_key_i32 Examples.vecs1x2 1 2 []).
  - reflexivity.
  - reflexivity.
  - reflexivity.
  - reflexivity.
  - reflexivity.
  - simpl. discriminate.
Defined.

(** X4: once the dimension is set, an append returns exactly when the
    vectors are [n x d] with [d] the stored dimension and the stored
    element type, and the keys are [n] along their first axis and of the
    stored key type; it then performs the four updates and nothing else. *)
Theorem X4_append_returns_iff_batch_fits
    (s : Store) (keys vectors : ndarray) :
  truthy_nat (num_dim s) = true ->
  (snd (add keys vectors s) = Ok tt
   <-> exists n d ks,
         shape vectors = [n; d] /\ shape keys = n :: ks
         /\ num_dim s = Some d /\ dtype_ s = Some (name (dtype vectors))
         /\ key_dtype s = Some (name (dtype keys)))
  /\ (snd (add keys vectors s) = Ok tt ->
      fst (add keys vectors s)
      = appended keys vectors (hd 0 (shape vectors)) s).
Proof.
  intros Ht. split; [split|].
  - intros H. destruct (add keys vectors s) as [s' r] eqn:E. simpl in H. subst r.
    destruct (add_set_ok_inv s s' keys vectors Ht E)
      as (n & d & ks & Hv & Hk & Hd & Hty & Hkt & _).
    exists n, d, ks. auto.
  - intros (n & d & ks & Hv & Hk & Hd & Hty & Hkt).
    now rewrite (add_set_ok s keys vectors n d ks Ht Hv Hk Hd Hty Hkt).
  - intros H. destruct (add keys vectors s) as [s' r] eqn:E. simpl in H. subst r.
    destruct (add_set_ok_inv s s' keys vectors Ht E)
      as (n & d & ks & Hv & _ & _ & _ & _ & ->).
    rewrite Hv. reflexivity.
Qed.

Lemma X4_append_returns_iff_batch_fits_witness :
  snd (add Examples.one_key Examples.vecs1x2 Examples.store3x2) = Ok tt
  /\ _size (fst (add Examples.one_key Examples.vecs1x2 Examples.store3x2)) = 4.
Proof.
  destruct (X4_append_returns_iff_batch_fits
              Examples.store3x2 Examples.one_key Examples.vecs1x2 eq_refl)
    as [[_ Hok] Hst].
  assert (H : snd (add Examples.one_key Examples.vecs1x2 Examples.store3x2) = Ok tt).
  { apply Hok. exists 1, 2, []. repeat split; reflexivity. }
  split; [exact H|]. rewrite (Hst H). reflexivity.
Defined.

(** X5: while the dimension is unset (or zero), an append of rank-2
    vectors is not validated at all: whatever the key count, key type and
    element type, it returns, records width and element type as the
    schema and the keys' type as the key type, appends both byte strings,
    and counts the keys, not the rows. *)
Theorem X5_first_append_is_not_validated
    (s : Store) (keys vectors : ndarray) (n d k : nat) (ks : list nat) :
  truthy_nat (num_dim s) = false ->
  shape vectors = [n; d] -> shape keys = k :: ks ->
  let s' := fst (add keys vectors s) in
  snd (add keys vectors s) = Ok tt
  /\ num_dim s' = Some d /\ dtype_ s' = Some (name (dtype vectors))
  /\ key_dtype s' = Some (name (dtype keys))
  /\ write_handler s' = (write_handler s ++ tobytes vectors)%list
  /\ key_bytes s' = (key_bytes s ++ tobytes keys)%list
  /\ _size s' = _size s + k.
Proof.
  intros Ht Hv Hk. rewrite (add_unset s keys vectors n d k ks Ht Hv Hk).
  repeat split; reflexivity.
Qed.

Lemma X5_first_append_is_not_validated_witness :
  snd (add Examples.one_key Examples.vecs2x3 (init 1)) = Ok tt
  /\ _size (fst (add Examples.one_key Examples.vecs2x3 (init 1))) = 1.
Proof.
  destruct (X5_first_append_is_not_validated
              (init 1) Examples.one_key Examples.vecs2x3 2 3 1 []
              eq_refl eq_refl eq_refl)
    as (H1 & _ & _ & _ & _ & _ & H2).
  split; [exact H1 | exact H2].
Defined.

(** X6: a key array without any axis makes an append on an unset store
    fail half-way: the [IndexError] of [keys.shape[0]] comes from the last
    line, after the schema, the vector bytes, the key bytes and the key
    type have been stored; only the count is left as it was. *)
Theorem X6_scalar_keys_leave_a_partial_write
    (s : Store) (keys vectors : ndarray) (n d : nat) :
  truthy_nat (num_dim s) = false ->
  shape vectors = [n; d] -> shape keys = [] ->
  add keys vectors s
  = (set_key_dtype (name (dtype keys))
       (extend_key_bytes (tobytes keys)
          (write (tobytes vectors)
             (set_schema d (name (dtype vectors)) s))),
     Raise IndexError).
Proof.
  intros Ht Hv Hk. unfold_add. rewrite Hv, Hk. simpl. rewrite Ht. simpl.
  reflexivity.
Qed.

Lemma X6_scalar_keys_leave_a_partial_write_witness :
  snd (add Examples.scalar_key Examples.vecs1x2 (init 1)) = Raise IndexError
  /\ List.length (write_handler (fst (add Examples.scalar_key Examples.vecs1x2 (init 1)))) = 8
  /\ _size (fst (add Examples.scalar_key Examples.vecs1x2 (init 1))) = 0.
Proof.
  rewrite (X6_scalar_keys_leave_a_partial_write
             (init 1) Examples.scalar_key Examples.vecs1x2 1 2
             eq_refl eq_refl eq_refl).
  repeat split; reflexivity.
Defined.

Section AddFrame.
Context {X : Type} (f : Store -> X).
Hypothesis f_set_schema : forall d t s, f (set_schema d t s) = f s.
Hypothesis f_write : forall bs s, f (write bs s) = f s.
Hypothesis f_extend_key_bytes : forall bs s, f (extend_key_bytes bs s) = f s.
Hypothesis f_set_key_dtype : forall t s, f (set_key_dtype t s) = f s.
Hypothesis f_grow_size : forall n s, f (grow_size n s) = f s.

(** A view of the store that none of the five updates of [add] changes
    is not changed by [add], whatever the stream does. *)
Lemma preserves_add_on (h : handler) (keys vectors : ndarray) :
  preserves f (add_on h keys vectors).
Proof.
  unfold add_on, validate.
  apply preserves_bind; [|intros _].
  { destruct (negb (ndim vectors =? 2));
      [apply preserves_raise | apply preserves_ret]. }
  apply preserves_bind; [|intros _].
  { apply preserves_get. intros s0.
    destruct (negb (truthy_nat (num_dim s0))).
    - apply preserves_bind; [apply preserves_shape_at | intros d].
      now apply preserves_modify.
    - apply preserves_bind; [apply preserves_shape_at | intros d].
      destruct (negb (opt_nat_eqb (num_dim s0) d)).
      + apply preserves_bind; [apply preserves_shape_at | intros n].
        apply preserves_raise.
      + destruct (negb (opt_str_eqb (dtype_ s0) (name (dtype vectors))));
          [apply preserves_raise|].
        apply preserves_bind; [apply preserves_shape_at | intros k].
        apply preserves_bind; [apply preserves_shape_at | intros n].
        destruct (negb (k =? n)); [apply preserves_raise|].
        destruct (negb (opt_str_eqb (key_dtype s0) (name (dtype keys))));
          [apply preserves_raise | apply preserves_ret]. }
  apply preserves_bind; [|intros _].
  { destruct h; [now apply preserves_modify | apply preserves_raise]. }
  apply preserves_bind; [now apply preserves_modify | intros _].
  apply preserves_bind; [now apply preserves_modify | intros _].
  apply preserves_bind; [apply preserves_shape_at | intros k].
  now apply preserves_modify.
Qed.

Lemma preserves_add (keys vectors : ndarray) : preserves f (add keys vectors).
Proof. apply preserves_add_on. Qed.
End AddFrame.

(** Over a stream that raises, [add] changes neither byte string nor
    the count. *)
Lemma add_refused_grows_nothing (s : Store) (e : exn) (keys vectors : ndarray) :
  key_bytes (fst (add_on (refuses e) keys vectors s)) = key_bytes s
  /\ write_handler (fst (add_on (refuses e) keys vectors s)) = write_handler s
  /\ _size (fst (add_on (refuses e) keys vectors s)) = _size s.
Proof.
  destruct (truthy_nat (num_dim s)) eqn:Ht.
  - now rewrite add_refused_set_unchanged.
  - unfold_add.
    destruct (shape vectors) as [|n [|d [|? ?]]]; simpl; auto.
    rewrite Ht. simpl. auto.
Qed.

(** Whatever [add] does, it only appends to the two byte strings and
    adds to the count. *)
Lemma add_grows (s : Store) (keys vectors : ndarray) :
  exists kb wb n,
    key_bytes (fst (add keys vectors s)) = (key_bytes s ++ kb)%list
    /\ write_handler (fst (add keys vectors s)) = (write_handler s ++ wb)%list
    /\ _size (fst (add keys vectors s)) = _size s + n.
Proof.
  destruct (truthy_nat (num_dim s)) eqn:Ht.
  - destruct (add keys vectors s) as [s' [[]|e]] eqn:E; simpl.
    + destruct (add_set_ok_inv s s' keys vectors Ht E)
        as (n & d & ks & _ & _ & _ & _ & _ & ->).
      exists (tobytes keys), (tobytes vectors), n. auto.
    + rewrite (add_set_raise_unchanged s s' keys vectors e Ht E).
      exists [], [], 0. rewrite !app_nil_r. auto.
  - unfold_add.
    destruct (shape vectors) as [|n [|d [|? ?]]]; simpl;
      try (exists [], [], 0; rewrite !app_nil_r; auto; fail).
    rewrite Ht. simpl.
    destruct (shape keys) as [|k ks]; simpl.
    + exists (tobytes keys), (tobytes vectors), 0. auto.
    + exists (tobytes keys), (tobytes vectors), k. auto.
Qed.

(** X7: the store is append-only.  After any sequence of appends, loads
    and queries, failing or not, the key buffer and the written stream
    still start with what they held before, and the count has not
    decreased. *)
Theorem X7_store_is_append_only
    (T : Type) (build : ndarray -> result T) (ops : list op) (s : Store) :
  exists kb wb n,
    key_bytes (run T build s ops) = (key_bytes s ++ kb)%list
    /\ write_handler (run T build s ops) = (write_handler s ++ wb)%list
    /\ _size (run T build s ops) = _size s + n.
Proof.
  revert s. induction ops as [|o ops IH]; intros s; simpl.
  - exists [], [], 0. rewrite !app_nil_r. auto.
  - assert (H : exists kb wb n,
               key_bytes (step T build s o) = (key_bytes s ++ kb)%list
               /\ write_handler (step T build s o) = (write_handler s ++ wb)%list
               /\ _size (step T build s o) = _size s + n).
    { destruct o as [keys vectors|e keys vectors| | |]; simpl.
      - apply add_grows.
      - exists [], [], 0. rewrite !app_nil_r, Nat.add_0_r.
        apply add_refused_grows_nothing.
      - exists [], [], 0. rewrite !app_nil_r, Nat.add_0_r.
        pose proof (preserves_load_gzip write_state (fun _ _ _ => eq_refl) s) as E.
        injection E. auto.
      - exists [], [], 0. rewrite !app_nil_r, Nat.add_0_r.
        pose proof (preserves_raw_ndarray write_state
                      (fun _ _ _ => eq_refl) (fun _ _ => eq_refl) s) as E.
        injection E. auto.
      - exists [], [], 0. rewrite !app_nil_r, Nat.add_0_r.
        pose proof (preserves_get_query_handler write_state
                      (fun _ _ _ => eq_refl) (fun _ _ => eq_refl)
                      (fun _ _ => eq_refl) T build s) as E.
        injection E. auto. }
    destruct H as (kb1 & wb1 & n1 & Hk1 & Hw1 & Hn1).
    destruct (IH (step T build s o)) as (kb2 & wb2 & n2 & Hk2 & Hw2 & Hn2).
    exists (kb1 ++ kb2)%list, (wb1 ++ wb2)%list, (n1 + n2).
    rewrite Hk2, Hw2, Hn2, Hk1, Hw1, Hn1, !app_assoc. repeat split; lia.
Qed.

(** X8: an append, failing or not, writes no log record, does not touch
    the key table and calls no hook. *)
Theorem X8_append_is_silent (s : Store) (keys vectors : ndarray) :
  logger (fst (add keys vectors s)) = logger s
  /\ int2ext_key (fst (add keys vectors s)) = int2ext_key s
  /\ hook_calls (fst (add keys vectors s)) = hook_calls s.
Proof.
  repeat split.
  - apply (preserves_add logger); reflexivity.
  - apply (preserves_add int2ext_key); reflexivity.
  - apply (preserves_add hook_calls); reflexivity.
Qed.

(** X9: the compression level is fixed at construction: no sequence of
    appends (over a stream that takes the bytes or one that raises), loads
    and queries changes it; and a query, like a load, leaves the schema,
    the key buffer, the count, the written stream and the file alone. *)
Theorem X9_compress_level_is_constant
    (T : Type) (build : ndarray -> result T) (ops : list op) (s : Store) :
  compress_level (run T build s ops) = compress_level s
  /\ write_state (fst (get_query_handler T build s)) = write_state s.
Proof.
  split.
  - revert s. induction ops as [|o ops IH]; intros s; simpl; [auto|].
    rewrite IH. clear IH.
    destruct o as [keys vectors|e keys vectors| | |]; simpl.
    + apply (preserves_add compress_level); reflexivity.
    + apply (preserves_add_on compress_level); reflexivity.
    + apply (preserves_load_gzip compress_level); reflexivity.
    + apply (preserves_raw_ndarray compress_level); reflexivity.
    + apply (preserves_get_query_handler compress_level); reflexivity.
  - apply (preserves_get_query_handler write_state); reflexivity.
Qed.

(* ================================================================== *)
(** ** More on the read path *)
(* ================================================================== *)

(** The result of [raw_ndarray] is a function of what it reads: the
    schema, the key buffer and the file, and the previous key table only
    when the key buffer cannot replace it. *)
Lemma raw_ndarray_ext (s t : Store) :
  read_view s = read_view t ->
  (truthy_bytes (key_bytes s) && truthy_str (key_dtype s) = false ->
   int2ext_key s = int2ext_key t) ->
  snd (raw_ndarray s) = snd (raw_ndarray t).
Proof.
  destruct s as [nd dt cl kb kd sz ik wh f lg hc].
  destruct t as [nd' dt' cl' kb' kd' sz' ik' wh' f' lg' hc'].
  unfold read_view. simpl. intros E Hk. injection E as -> -> -> -> ->.
  unfold_raw. simpl.
  destruct (truthy_bytes kb' && truthy_str kd') eqn:Et.
  - repeat (break_match; simpl; try reflexivity; try discriminate).
  - rewrite (Hk eq_refl).
    repeat (break_match; simpl; try reflexivity; try discriminate).
Qed.

(** Without a usable key buffer, [raw_ndarray] leaves the key table. *)
Lemma raw_ndarray_keeps_table (s : Store) :
  truthy_bytes (key_bytes s) && truthy_str (key_dtype s) = false ->
  int2ext_key (fst (raw_ndarray s)) = int2ext_key s.
Proof.
  intros Et.
  assert (Hd : forall s0, key_bytes s0 = key_bytes s -> key_dtype s0 = key_dtype s ->
               derive_int2ext_key s0 = (s0, Ok tt)).
  { intros s0 Hb Hk. unfold derive_int2ext_key, bind, get, ret.
    now rewrite Hb, Hk, Et. }
  unfold raw_ndarray, bind at 1.
  pose proof (preserves_load_gzip int2ext_key (fun _ _ _ => eq_refl) s) as Hi.
  pose proof (preserves_load_gzip key_bytes (fun _ _ _ => eq_refl) s) as Hb.
  pose proof (preserves_load_gzip key_dtype (fun _ _ _ => eq_refl) s) as Hk.
  destruct (_load_gzip s) as [s1 [[vecs|]|e]]; simpl in *; try exact Hi.
  unfold bind at 1. rewrite (Hd s1 Hb Hk).
  unfold shape_at, log, bind, get, ret, raise, modify.
  repeat (break_match; simpl; try congruence).
Qed.

(** X10: materializing is repeatable: a second [raw_ndarray] right after
    the first returns the same array, the same nothing or raises the same
    exception. *)
Theorem X10_raw_ndarray_is_repeatable (s : Store) :
  snd (raw_ndarray (fst (raw_ndarray s))) = snd (raw_ndarray s).
Proof.
  pose proof (preserves_raw_ndarray read_view
                (fun _ _ _ => eq_refl) (fun _ _ => eq_refl) s) as Hv.
  apply raw_ndarray_ext; [exact Hv|].
  unfold read_view in Hv. injection Hv as _ _ Hkb Hkd _.
  rewrite Hkb, Hkd. apply raw_ndarray_keeps_table.
Qed.

(** X11: while the dimension is unset or zero, or the element type is
    unset, an existing file is not even opened: loading, materializing and
    querying return nothing and log only the announcement, also over a
    file that could not be read. *)
Theorem X11_unset_schema_skips_the_file
    (T : Type) (build : ndarray -> result T) (s : Store) (g : gzip_read) :
  index_file s = Some g ->
  truthy_nat (num_dim s) && truthy_str (dtype_ s) = false ->
  _load_gzip s = (emit INFO loading_index s, Ok None)
  /\ raw_ndarray s = (emit INFO loading_index s, Ok None)
  /\ get_query_handler T build s = (emit INFO loading_index s, Ok None).
Proof.
  intros Hf Hs. pose proof (load_gzip_no_schema s g Hf Hs) as Hl.
  pose proof (raw_ndarray_load_none s _ Hl) as Hr.
  repeat split; auto.
  unfold get_query_handler, bind. rewrite Hr. reflexivity.
Qed.

Lemma X11_unset_schema_skips_the_file_witness :
  raw_ndarray (set_index_file (Some (GzRaises OSError)) Examples.store_dim0)
  = (emit INFO loading_index
       (set_index_file (Some (GzRaises OSError)) Examples.store_dim0),
     Ok None).
Proof.
  apply (X11_unset_schema_skips_the_file unit base_build
           (set_index_file (Some (GzRaises OSError)) Examples.store_dim0)
           (GzRaises OSError)); reflexivity.
Defined.

(** X12: with the schema set, of the exceptions raised while the file is
    read only [EOFError] is caught: it is logged as an error and nothing
    is returned; any other exception leaves [_load_gzip] and
    [raw_ndarray] as it is, with no error record. *)
Theorem X12_only_eof_is_caught (s : Store) (e : exn) :
  index_file s = Some (GzRaises e) ->
  truthy_nat (num_dim s) && truthy_str (dtype_ s) = true ->
  (e = EOFError ->
   raw_ndarray s
   = (emit ERROR broken_incomplete (emit INFO loading_index s), Ok None))
  /\ (e <> EOFError ->
      _load_gzip s = (emit INFO loading_index s, Raise e)
      /\ raw_ndarray s = (emit INFO loading_index s, Raise e)).
Proof.
  intros Hf Hs. split.
  - intros ->. apply raw_ndarray_load_none. now apply load_gzip_eof.
  - intros He.
    assert (Hl : _load_gzip s = (emit INFO loading_index s, Raise e)).
    { unfold_load. simpl. rewrite Hf, Hs. destruct e; try reflexivity.
      contradiction. }
    split; [exact Hl | now apply raw_ndarray_load_raise].
Qed.

Lemma X12_only_eof_is_caught_witness :
  raw_ndarray (set_index_file (Some (GzRaises OSError)) Examples.store3x2)
  = (emit INFO loading_index
       (set_index_file (Some (GzRaises OSError)) Examples.store3x2),
     Raise OSError).
Proof.
  apply (X12_only_eof_is_caught
           (set_index_file (Some (GzRaises OSError)) Examples.store3x2) OSError).
  - reflexivity.
  - reflexivity.
  - discriminate.
Defined.

(** A payload of [r] whole rows is read back as an [r x D] array. *)
Lemma frombuffer_rows (buf : list byte) (T : DType) (r D : nat) :
  D <> 0 -> List.length buf = r * (D * itemsize T) ->
  exists flat,
    frombuffer buf (name T) = inl flat
    /\ reshape_rows flat D = inl (mk_ndarray T native [r; D] buf).
Proof.
  intros HD Hl. pose proof (itemsize_pos T) as P.
  unfold frombuffer. rewrite of_name_name.
  replace (List.length buf) with (r * D * itemsize T) by lia.
  rewrite Nat.Div0.mod_mul, Nat.div_mul by lia. simpl.
  eexists. split; [reflexivity|].
  unfold reshape_rows, size. simpl. rewrite Nat.mul_1_r.
  destruct D as [|D']; [congruence|].
  now rewrite Nat.Div0.mod_mul, Nat.div_mul by lia.
Qed.

(** X13: with dimension [D > 0] and element type [T] set, a file whose
    payload is [r] whole rows ([r * D * sizeof T] bytes, [r] possibly
    zero) loads as the [r x D] array of type [T] over exactly these
    bytes. *)
Theorem X13_whole_rows_load (s : Store) (buf : list byte) (T : DType) (r D : nat) :
  index_file s = Some (GzBytes buf) ->
  num_dim s = Some D -> D <> 0 -> dtype_ s = Some (name T) ->
  List.length buf = r * (D * itemsize T) ->
  _load_gzip s
  = (emit INFO loading_index s, Ok (Some (mk_ndarray T native [r; D] buf))).
Proof.
  intros Hf Hd HD Ht Hl.
  rewrite (load_gzip_payload s buf D (name T) Hf Hd HD Ht (name_nonempty T)).
  destruct (frombuffer_rows buf T r D HD Hl) as (flat & -> & ->).
  reflexivity.
Qed.

Lemma X13_whole_rows_load_witness :
  snd (_load_gzip (set_index_file (Some (GzBytes (Examples.zeros 16)))
                     Examples.store3x2))
  = Ok (Some Examples.vecs2x2).
Proof.
  rewrite (X13_whole_rows_load
             (set_index_file (Some (GzBytes (Examples.zeros 16))) Examples.store3x2)
             (Examples.zeros 16) float32 2 2).
  - reflexivity.
  - reflexivity.
  - reflexivity.
  - lia.
  - reflexivity.
  - reflexivity.
Defined.

(** X14: a loaded array without a key table is not served: when the key
    buffer is empty (or the key type unset) and [int2ext_key] holds
    [None], [raw_ndarray] returns nothing after a successful load, and it
    does so without any warning or error record. *)
Theorem X14_no_key_table_no_array (s s1 : Store) (vecs : ndarray) :
  _load_gzip s = (s1, Ok (Some vecs)) ->
  truthy_bytes (key_bytes s) && truthy_str (key_dtype s) = false ->
  int2ext_key s = none_table ->
  raw_ndarray s = (emit INFO loading_index s, Ok None).
Proof.
  intros Hl Et Hk.
  destruct (load_gzip_some_inv s s1 vecs Hl) as (D & t & buf & _ & _ & _ & _ & _ & _ & _ & ->).
  assert (Hder : derive_int2ext_key (emit INFO loading_index s)
                 = (emit INFO loading_index s, Ok tt)).
  { unfold derive_int2ext_key, bind, get, ret. simpl. now rewrite Et. }
  unfold raw_ndarray, bind at 1. rewrite Hl.
  unfold bind at 1. rewrite Hder.
  unfold bind, get. simpl. rewrite Hk. reflexivity.
Qed.

Lemma X14_no_key_table_no_array_witness :
  let s := clear_int2ext_key
             (close (fst (add Examples.no_keys Examples.vecs2x2 (init 1)))) in
  raw_ndarray s = (emit INFO loading_index s, Ok None).
Proof.
  intros s.
  apply (X14_no_key_table_no_array s (emit INFO loading_index s) Examples.vecs2x2);
    reflexivity.
Defined.

(** X15: a zero-row array is served only against a zero-length key table
    that was already there: with an empty payload and an empty key buffer,
    [raw_ndarray] returns the [0 x D] array and logs the warning that an
    empty index is loaded. *)
Theorem X15_empty_index_is_served_with_a_warning
    (s : Store) (T : DType) (D : nat) (table : ndarray) (ks : list nat) :
  index_file s = Some (GzBytes []) ->
  num_dim s = Some D -> D <> 0 -> dtype_ s = Some (name T) ->
  key_bytes s = [] ->
  int2ext_key s = keys_table table -> shape table = 0 :: ks ->
  raw_ndarray s
  = (emit WARNING empty_index_loaded (emit INFO loading_index s),
     Ok (Some (mk_ndarray T native [0; D] []))).
Proof.
  intros Hf Hd HD Ht Hkb Hk Hs.
  pose proof (Hload := load_gzip_payload s [] D (name T) Hf Hd HD Ht (name_nonempty T)).
  destruct (frombuffer_rows [] T 0 D HD eq_refl) as (flat & Hfb & Hrs).
  rewrite Hfb, Hrs in Hload.
  assert (Hder : derive_int2ext_key (emit INFO loading_index s)
                 = (emit INFO loading_index s, Ok tt)).
  { unfold derive_int2ext_key, bind, get, ret. simpl. now rewrite Hkb. }
  apply (raw_ndarray_aligned s _ _ (mk_ndarray T native [0; D] []) table 0 D ks
           Hload Hder Hk eq_refl Hs).
Qed.

Lemma X15_empty_index_is_served_with_a_warning_witness :
  let s := set_int2ext_key Examples.no_keys
             (close (fst (add Examples.no_keys Examples.vecs0x2 (init 1)))) in
  raw_ndarray s
  = (emit WARNING empty_index_loaded (emit INFO loading_index s),
     Ok (Some Examples.vecs0x2)).
Proof.
  intros s.
  apply (X15_empty_index_is_served_with_a_warning s float32 2 Examples.no_keys []).
  - reflexivity.
  - reflexivity.
  - lia.
  - reflexivity.
  - reflexivity.
  - reflexivity.
  - reflexivity.
Defined.

(** X16: in [BaseNumpyIndexer] itself, where the hook is abstract, the
    query path never returns an index: it raises [NotImplementedError]
    exactly when materializing returned an array, and otherwise returns
    nothing or raises what materializing raised. *)
Theorem X16_abstract_hook_cannot_answer (s : Store) :
  snd (get_query_handler unit base_build s)
  = match snd (raw_ndarray s) with
    | Ok (Some _) => Raise NotImplementedError
    | Ok None => Ok None
    | Raise e => Raise e
    end.
Proof.
  unfold get_query_handler, build_advanced_index, base_build,
    bind, modify, ret, raise.
  destruct (raw_ndarray s) as [s1 [[v|]|e]]; reflexivity.
Qed.

(* ------------------------------------------------------------------ *)

(** A buffer of [k] whole keys is read back as the rank-1 array of
    these keys. *)
Lemma frombuffer_keys (buf : list byte) (KT : DType) (k : nat) :
  List.length buf = k * itemsize KT ->
  frombuffer buf (name KT) = inl (mk_ndarray KT native [k] buf).
Proof.
  intros Hl. pose proof (itemsize_pos KT) as P.
  unfold frombuffer. rewrite of_name_name, Hl.
  now rewrite Nat.Div0.mod_mul, Nat.div_mul by lia.
Qed.

(** A consistent batch is appended to a store that counts right: its
    bytes go to the end of the two byte strings and the schema is the
    batch's from then on. *)
Lemma add_consistent (D : nat) (T KT : DType) (s : Store) (b : batch) :
  counted D T KT s -> consistent D T KT b ->
  exists s',
    add (fst b) (snd b) s = (s', Ok tt)
    /\ counted D T KT s' /\ _size s' = _size s + batch_rows b
    /\ key_bytes s' = (key_bytes s ++ tobytes (fst b))%list
    /\ write_handler s' = (write_handler s ++ tobytes (snd b))%list
    /\ has_schema D T KT s'.
Proof.
  intros Hc Hb.
  destruct (add_counted D T KT s b Hc Hb) as (s' & Ha & Hc' & Hn).
  exists s'. repeat (split; [assumption|]).
  destruct Hc as (Hs & _). destruct Hb as (n & Hv & HT & _ & Hk & HKT & _).
  destruct (truthy_nat (num_dim s)) eqn:Ht.
  - destruct (Hs eq_refl) as (Hd & Hty & Hkt).
    rewrite <- HT in Hty. rewrite <- HKT in Hkt.
    rewrite (add_set_ok s _ _ n D [] Ht Hv Hk Hd Hty Hkt) in Ha.
    injection Ha as <-. unfold has_schema. simpl.
    rewrite HT in Hty. rewrite HKT. repeat split; auto.
  - rewrite (add_unset s _ _ n D n [] Ht Hv Hk) in Ha.
    injection Ha as <-. unfold has_schema. simpl. rewrite HT, HKT.
    repeat split; auto.
Qed.

Lemma add_all_consistent (D : nat) (T KT : DType) (bs : list batch) (s : Store) :
  counted D T KT s -> Forall (consistent D T KT) bs ->
  exists s',
    add_all bs s = (s', Ok tt)
    /\ counted D T KT s' /\ _size s' = _size s + total_rows bs
    /\ key_bytes s' = (key_bytes s ++ keys_bytes bs)%list
    /\ write_handler s' = (write_handler s ++ vectors_bytes bs)%list
    /\ (bs = [] \/ has_schema D T KT s').
Proof.
  intros Hc Hbs. revert s Hc.
  induction Hbs as [|b bs Hb _ IH]; intros s Hc.
  - exists s. unfold total_rows, keys_bytes, vectors_bytes. simpl.
    rewrite !app_nil_r, Nat.add_0_r.
    split; [reflexivity|]. split; [exact Hc|]. auto.
  - destruct (add_consistent D T KT s b Hc Hb)
      as (s1 & Ha & Hc1 & Hn1 & Hk1 & Hw1 & Hs1).
    destruct (IH s1 Hc1) as (s2 & Ha2 & Hc2 & Hn2 & Hk2 & Hw2 & Hs2).
    exists s2. split; [|split; [exact Hc2|]].
    + destruct b as [keys vectors]. simpl in *. unfold bind. now rewrite Ha.
    + unfold total_rows, keys_bytes, vectors_bytes in *. simpl.
      rewrite Hk2, Hw2, Hk1, Hw1, <- !app_assoc.
      repeat split; try lia. right.
      destruct Hs2 as [-> | Hs2]; [|exact Hs2].
      simpl in Ha2. injection Ha2 as <-. exact Hs1.
Qed.

(** An element in the middle of a concatenation of buffers. *)
Lemma slice_app (isz p i : nat) (pre mid post : list byte) :
  List.length pre = p * isz -> (i + 1) * isz <= List.length mid ->
  firstn isz (skipn ((p + i) * isz) (pre ++ mid ++ post))
  = firstn isz (skipn (i * isz) mid).
Proof.
  intros Hp Hi.
  replace ((p + i) * isz) with (List.length pre + i * isz) by lia.
  rewrite skipn_app, skipn_all2 by lia. simpl.
  replace (List.length pre + i * isz - List.length pre) with (i * isz) by lia.
  rewrite skipn_app.
  replace (i * isz - List.length mid) with 0 by lia. simpl.
  rewrite firstn_app, length_skipn.
  replace (isz - (List.length mid - i * isz)) with 0 by lia.
  simpl. apply app_nil_r.
Qed.

Lemma length_batches_bytes (D : nat) (T KT : DType) (bs : list batch) :
  Forall (consistent D T KT) bs ->
  List.length (vectors_bytes bs) = total_rows bs * D * itemsize T
  /\ List.length (keys_bytes bs) = total_rows bs * itemsize KT.
Proof.
  unfold vectors_bytes, keys_bytes, total_rows.
  induction 1 as [|b bs (n & Hv & HT & Wv & Hk & HKT & Wk) _ [IHv IHk]];
    simpl; [auto|].
  rewrite !length_app, IHv, IHk. unfold tobytes, batch_rows.
  unfold wf, size in Wv, Wk. rewrite Hv, HT in Wv. rewrite Hk, HKT in Wk.
  simpl in Wv, Wk. rewrite Wv, Wk, Hv. simpl. split; lia.
Qed.

(** X17: a whole ingestion session round-trips.  After a list of
    consistent batches (dimension [D > 0], at least one row in all) is
    appended to a new store and the stream closed, materializing returns
    the native-order array over the vector bytes of all batches in append
    order, and the key table is the native-order array over all key
    bytes; for every batch that is itself in native byte order these are
    its elements: element [i] of the batch is element [i] after the rows
    (the keys) of the batches before it. *)
Theorem X17_session_round_trip
    (c D : nat) (T KT : DType) (bs : list batch) :
  Forall (consistent D T KT) bs -> D <> 0 -> total_rows bs <> 0 ->
  let s := close (fst (add_all bs (init c))) in
  let loaded := mk_ndarray T native [total_rows bs; D] (vectors_bytes bs) in
  let keys := mk_ndarray KT native [total_rows bs] (keys_bytes bs) in
  snd (raw_ndarray s) = Ok (Some loaded)
  /\ int2ext_key (fst (raw_ndarray s)) = keys_table keys
  /\ (forall pre b post i,
        bs = (pre ++ b :: post)%list ->
        (byteorder (snd b) = native -> i < batch_rows b * D ->
         item loaded (total_rows pre * D + i) = item (snd b) i)
        /\ (byteorder (fst b) = native -> i < batch_rows b ->
            item keys (total_rows pre + i) = item (fst b) i)).
Proof.
  intros Hbs HD Hrows s0 loaded keys. subst s0 loaded keys.
  assert (H0 : counted D T KT (init c)).
  { split; [discriminate | split; reflexivity]. }
  destruct (add_all_consistent D T KT bs (init c) H0 Hbs)
    as (s' & Ha & (_ & Lk & Lw) & Hn & Hk & Hw & Hs).
  pose proof (add_all_keeps_file bs (init c)) as Hf.
  rewrite Ha in *. simpl fst in *. simpl in Hn, Hk, Hw, Hf.
  destruct Hs as [-> | (Hd & Hty & Hkt)]; [now elim Hrows|].
  set (s := close s').
  assert (Hfile : index_file s = Some (GzBytes (vectors_bytes bs))).
  { unfold s, close. simpl. rewrite Hf, Hw. reflexivity. }
  assert (Hl : _load_gzip s
               = (emit INFO loading_index s,
                  Ok (Some (mk_ndarray T native [total_rows bs; D] (vectors_bytes bs))))).
  { rewrite (load_gzip_payload s (vectors_bytes bs) D (name T)
               Hfile Hd HD Hty (name_nonempty T)).
    destruct (frombuffer_rows (vectors_bytes bs) T (total_rows bs) D HD)
      as (flat & -> & ->); [|reflexivity].
    rewrite <- Hw, Lw, Hn. reflexivity. }
  assert (Hlen : List.length (keys_bytes bs) = total_rows bs * itemsize KT).
  { rewrite <- Hk, Lk, Hn. reflexivity. }
  assert (Hder : derive_int2ext_key (emit INFO loading_index s)
                 = (set_int2ext_key (mk_ndarray KT native [total_rows bs] (keys_bytes bs))
                      (emit INFO loading_index s), Ok tt)).
  { apply (derive_int2ext_key_ok _ _ (name KT)).
    - simpl. rewrite Hk.
      pose proof (itemsize_pos KT).
      destruct (keys_bytes bs); [simpl in Hlen; nia | reflexivity].
    - exact Hkt.
    - apply name_nonempty.
    - simpl. rewrite Hk. now apply frombuffer_keys. }
  rewrite (raw_ndarray_aligned s _ _ _ _ (total_rows bs) D [] Hl Hder
             eq_refl eq_refl eq_refl).
  apply Nat.eqb_neq in Hrows. rewrite Hrows.
  split; [reflexivity|]. split; [reflexivity|].
  intros pre b post i ->.
  apply Forall_app in Hbs. destruct Hbs as [Hpre Hb].
  apply Forall_cons_iff in Hb. destruct Hb as [(n & Hv & HT & Wv & Hsk & HKT & Wk) _].
  destruct (length_batches_bytes D T KT pre Hpre) as [Lv Lks].
  unfold wf, size in Wv, Wk. rewrite Hv, HT in Wv. rewrite Hsk, HKT in Wk.
  simpl in Wv, Wk.
  unfold item, vectors_bytes, keys_bytes, batch_rows. rewrite Hv. simpl hd.
  simpl dtype. simpl byteorder. simpl data.
  rewrite !map_app, !concat_app. simpl map. simpl List.concat.
  split.
  - intros Ho Hi. rewrite Ho, HT. unfold to_native.
    apply slice_app.
    + exact Lv.
    + unfold tobytes. rewrite Wv. nia.
  - intros Ho Hi. rewrite Ho, HKT. unfold to_native.
    apply slice_app.
    + exact Lks.
    + unfold tobytes. rewrite Wk. nia.
Qed.

Lemma X17_session_round_trip_witness :
  let bs := [(Examples.keys3, Examples.vecs3x2); (Examples.one_key, Examples.vecs1x2)] in
  let s := close (fst (add_all bs (init 1))) in
  snd (raw_ndarray s)
  = Ok (Some (mk_ndarray float32 native [4; 2] (vectors_bytes bs)))
  /\ int2ext_key (fst (raw_ndarray s))
     = keys_table (mk_ndarray int64 native [4] (keys_bytes bs)).
Proof.
  intros bs.
  destruct (X17_session_round_trip 1 2 float32 int64 bs) as (H1 & H2 & _).
  - repeat constructor.
    + exists 3. repeat split; reflexivity.
    + exists 1. repeat split; reflexivity.
  - lia.
  - vm_compute. lia.
  - split; [exact H1 | exact H2].
Defined.

(* ------------------------------------------------------------------ *)

Lemma add_keeps_schema_together (s : Store) (keys vectors : ndarray) :
  schema_together s -> schema_together (fst (add keys vectors s)).
Proof.
  intros Hs. destruct (truthy_nat (num_dim s)) eqn:Ht.
  - destruct (add keys vectors s) as [s' [[]|e]] eqn:E; simpl.
    + destruct (add_set_ok_inv s s' keys vectors Ht E)
        as (n & d & ks & _ & _ & Hd & Hty & _ & ->).
      right. simpl. rewrite Hd, Hty. repeat split; discriminate.
    + now rewrite (add_set_raise_unchanged s s' keys vectors e Ht E).
  - unfold_add.
    destruct (shape vectors) as [|n [|d [|? ?]]]; simpl; try exact Hs.
    rewrite Ht. simpl.
    destruct (shape keys) as [|k ks]; simpl;
      right; simpl; repeat split; discriminate.
Qed.

(** X18: over a stream that takes every write, the schema is set as a
    whole: in every store reached from a new one by appends, loads and
    queries, dimension, element type and key type are either all unset or
    all set. *)
Theorem X18_schema_is_set_as_a_whole
    (T : Type) (build : ndarray -> result T) (c : nat) (ops : list op) :
  Forall stream_accepts ops ->
  schema_together (run T build (init c) ops).
Proof.
  intros Hops.
  assert (H : forall s, schema_together s -> schema_together (run T build s ops)).
  { induction Hops as [|o ops Ho _ IH]; intros s Hs; simpl; [exact Hs|].
    apply IH. clear IH.
    set (f := fun s : Store => (num_dim s, dtype_ s, key_dtype s)).
    assert (Hf : forall s', f s' = f s -> schema_together s').
    { intros s' E. unfold f in E. injection E as E1 E2 E3.
      unfold schema_together in *. now rewrite E1, E2, E3. }
    destruct o as [keys vectors|e keys vectors| | |]; simpl.
    - now apply add_keeps_schema_together.
    - destruct Ho.
    - apply Hf. apply (preserves_load_gzip f). reflexivity.
    - apply Hf. apply (preserves_raw_ndarray f); reflexivity.
    - apply Hf. apply (preserves_get_query_handler f); reflexivity. }
  apply H. left. repeat split.
Qed.

Lemma X18_schema_is_set_as_a_whole_witness :
  schema_together
    (run unit base_build (init 1)
       [op_add Examples.one_key Examples.keys3;
        op_add Examples.scalar_key Examples.vecs1x2;
        op_raw_ndarray;
        op_add Examples.one_key Examples.vecs2x3]).
Proof.
  apply (X18_schema_is_set_as_a_whole unit base_build 1).
  repeat constructor.
Defined.

(** X19: when opening or writing the stream raises, an append on a store
    whose dimension is unset fails after the schema is recorded: the
    store is left with the dimension and the element type of the refused
    vectors, and with the key type, the key buffer, the count and the
    stream as they were; so a new store ends with a schema and no key
    type.  On a store whose dimension is set the same failure leaves
    nothing behind. *)
Theorem X19_refused_write_leaves_the_schema
    (s : Store) (e : exn) (keys vectors : ndarray) (n d : nat) :
  shape vectors = [n; d] ->
  (truthy_nat (num_dim s) = false ->
   add_on (refuses e) keys vectors s
   = (set_schema d (name (dtype vectors)) s, Raise e))
  /\ (truthy_nat (num_dim s) = true ->
      fst (add_on (refuses e) keys vectors s) = s).
Proof.
  intros Hv. split.
  - intros Ht. unfold_add. rewrite Hv. simpl. rewrite Ht. reflexivity.
  - intros Ht. now apply add_refused_set_unchanged.
Qed.

Lemma X19_refused_write_leaves_the_schema_witness :
  let s := fst (add_on (refuses OSError) Examples.one_key Examples.vecs1x2 (init 1)) in
  num_dim s = Some 2 /\ dtype_ s = Some "float32"%string /\ key_dtype s = None
  /\ ~ schema_together s.
Proof.
  intros s. subst s.
  rewrite (proj1 (X19_refused_write_leaves_the_schema
                    (init 1) OSError Examples.one_key Examples.vecs1x2 1 2 eq_refl)
             eq_refl).
  repeat split.
  intros [(H & _) | (_ & _ & H)]; [discriminate H | now apply H].
Defined.

(** X20: on a store where [int2ext_key] was never assigned, as [__init__]
    leaves it, a load that succeeds while the key buffer is empty (or the
    key type unset) makes [raw_ndarray] raise [AttributeError]: the
    attribute is read before anything has created it. *)
Theorem X20_unassigned_key_table_raises (s s1 : Store) (vecs : ndarray) :
  _load_gzip s = (s1, Ok (Some vecs)) ->
  truthy_bytes (key_bytes s) && truthy_str (key_dtype s) = false ->
  int2ext_key s = no_attribute ->
  raw_ndarray s = (emit INFO loading_index s, Raise AttributeError).
Proof.
  intros Hl Et Hk.
  destruct (load_gzip_some_inv s s1 vecs Hl)
    as (D & t & buf & _ & _ & _ & _ & _ & _ & _ & ->).
  assert (Hder : derive_int2ext_key (emit INFO loading_index s)
                 = (emit INFO loading_index s, Ok tt)).
  { unfold derive_int2ext_key, bind, get, ret. simpl. now rewrite Et. }
  unfold raw_ndarray, bind at 1. rewrite Hl.
  unfold bind at 1. rewrite Hder.
  unfold bind, get. simpl. rewrite Hk. reflexivity.
Qed.

Lemma X20_unassigned_key_table_raises_witness :
  let s := close (fst (add Examples.no_keys Examples.vecs2x2 (init 1))) in
  raw_ndarray s = (emit INFO loading_index s, Raise AttributeError).
Proof.
  intros s.
  apply (X20_unassigned_key_table_raises s (emit INFO loading_index s)
           Examples.vecs2x2); reflexivity.
Defined.
